(** * SMART-on-FHIR launch client: launch controller and observation feed

    Shallow embedding of the two script blocks of [src/unnamed/part_000]
    that carry the behaviour: the App component ([onMount], [clearAuthData],
    [makeTokenRequest]) and the ObservationViewer component ([getVitals],
    [fetchMoreFromServer], [updateDisplayedObservations], [loadMore],
    [hasMore], [bpDisplay], [createTemperatureObservation]).

    Every asynchronous handler is cut at its [await]: the synchronous part
    before it returns the request it issues, and a second function takes the
    response and runs the rest.  Between handlers Svelte flushes its reactive
    statement [$: if (vitalObservations) updateDisplayedObservations()]. *)

From Stdlib Require Import Bool ZArith Lia List String Ascii.
From Stdlib Require Import Sorting.Permutation Sorting.Sorted.
Import ListNotations.
Set Warnings "-register-all".
Local Open Scope string_scope.
Local Open Scope Z_scope.

(* ------------------------------------------------------------------ *)
(** ** JavaScript values used by the code *)

Module Js.

(** A JS number.  Finite values are kept as the decimal [m * 10^e] they
    were written as (in JSON or in the text given to [parseFloat]); the
    rounding to the nearest double is left out, so a decimal of at most 15
    significant digits prints back as written. *)
Inductive number :=
| NaN
| Inf (neg : bool)
| Fin (m e : Z).

Definition isNaN (x : number) : bool :=
  match x with NaN => true | _ => false end.

Definition is_digit (c : ascii) : bool :=
  let n := nat_of_ascii c in (48 <=? n)%nat && (n <=? 57)%nat.

Definition digit_val (c : ascii) : Z := Z.of_nat (nat_of_ascii c) - 48.

(** StrWhiteSpaceChar, restricted to the ASCII ones (TAB, LF, VT, FF, CR, SP). *)
Definition is_space (c : ascii) : bool :=
  let n := nat_of_ascii c in ((9 <=? n)%nat && (n <=? 13)%nat) || (n =? 32)%nat.

Fixpoint skip_space (l : list ascii) : list ascii :=
  match l with
  | c :: r => if is_space c then skip_space r else l
  | [] => []
  end.

(** Longest run of decimal digits at the head of [l], and what follows. *)
Fixpoint take_digits (l : list ascii) : list ascii * list ascii :=
  match l with
  | c :: r => if is_digit c then let '(d, t) := take_digits r in (c :: d, t)
              else ([], l)
  | [] => ([], [])
  end.

Definition digits_value (d : list ascii) : Z :=
  fold_left (fun acc c => 10 * acc + digit_val c) d 0.

Definition infinity_chars : list ascii := list_ascii_of_string "Infinity".

Fixpoint starts_with (p l : list ascii) : bool :=
  match p, l with
  | [], _ => true
  | c :: p', d :: l' => Ascii.eqb c d && starts_with p' l'
  | _ :: _, [] => false
  end.

(** The optional exponent part [e [+-] digits]; it only counts when at
    least one digit follows the marker. *)
Definition exponent_part (l : list ascii) : Z :=
  match l with
  | c :: r =>
      if Ascii.eqb c "e" || Ascii.eqb c "E" then
        let '(sg, r') :=
          match r with
          | s :: r' => if Ascii.eqb s "+" then (1, r')
                       else if Ascii.eqb s "-" then (-1, r') else (1, r)
          | [] => (1, r)
          end in
        let '(d, _) := take_digits r' in
        match d with [] => 0 | _ => sg * digits_value d end
      else 0
  | [] => 0
  end.

(** [parseFloat]: skip leading white space, then read the longest prefix
    that is a StrDecimalLiteral ([+-]? (Infinity | digits [. digits] [exp]
    | . digits [exp])); [NaN] when there is none. *)
Definition parse_float_chars (l : list ascii) : number :=
  let l := skip_space l in
  let '(neg, l) :=
    match l with
    | c :: r => if Ascii.eqb c "-" then (true, r)
                else if Ascii.eqb c "+" then (false, r) else (false, l)
    | [] => (false, l)
    end in
  if starts_with infinity_chars l then Inf neg
  else
    let '(int_part, rest) := take_digits l in
    let '(frac_part, rest) :=
      match rest with
      | c :: r => if Ascii.eqb c "." then take_digits r else ([], rest)
      | [] => ([], rest)
      end in
    match int_part ++ frac_part with
    | [] => NaN
    | ds =>
        let m := digits_value ds in
        Fin (if neg then - m else m)
            (exponent_part rest - Z.of_nat (List.length frac_part))
    end%list.

Definition parseFloat (s : string) : number :=
  parse_float_chars (list_ascii_of_string s).

(** Decimal digits of a natural number, most significant first. *)
Definition digit_char (d : Z) : ascii := ascii_of_nat (Z.to_nat (48 + d)).

Fixpoint digits_of_aux (fuel : nat) (n : Z) (acc : list ascii) : list ascii :=
  match fuel with
  | O => acc
  | S f => if n <? 10 then digit_char n :: acc
           else digits_of_aux f (n / 10) (digit_char (n mod 10) :: acc)
  end.

Definition digits_of (n : Z) : list ascii :=
  digits_of_aux (S (Z.to_nat (Z.log2 n))) n [].

(** Drop trailing zeros of the mantissa, moving them into the exponent. *)
Fixpoint strip_zeros (fuel : nat) (m e : Z) : Z * Z :=
  match fuel with
  | O => (m, e)
  | S f => if (m mod 10 =? 0) && negb (m =? 0) then strip_zeros f (m / 10) (e + 1)
           else (m, e)
  end.

Definition zeros (n : Z) : list ascii := repeat "0"%char (Z.to_nat n).

(** Number::toString for a positive decimal [m * 10^e] (ECMA-262 6.1.6.1.20):
    with [k] significant digits and the point after [n] of them, plain
    notation when [-6 < n <= 21], exponent notation otherwise. *)
Definition pos_to_chars (m0 e0 : Z) : list ascii :=
  let '(m, e) := strip_zeros (S (Z.to_nat (Z.log2 m0))) m0 e0 in
  let ds := digits_of m in
  let k := Z.of_nat (List.length ds) in
  let n := k + e in
  if (k <=? n) && (n <=? 21) then ds ++ zeros (n - k)
  else if (0 <? n) && (n <=? 21) then
    firstn (Z.to_nat n) ds ++ ["."%char] ++ skipn (Z.to_nat n) ds
  else if (-6 <? n) && (n <=? 0) then
    ["0"%char; "."%char] ++ zeros (- n) ++ ds
  else
    let ex := n - 1 in
    let ex_chars := (if ex <? 0 then "-"%char else "+"%char) :: digits_of (Z.abs ex) in
    match ds with
    | [d] => [d; "e"%char] ++ ex_chars
    | d :: r => [d; "."%char] ++ r ++ ["e"%char] ++ ex_chars
    | [] => []
    end%list.

(** [String(x)], as used by template literals. *)
Definition to_string (x : number) : string :=
  match x with
  | NaN => "NaN"
  | Inf false => "Infinity"
  | Inf true => "-Infinity"
  | Fin m e =>
      if m =? 0 then "0"
      else if m <? 0 then "-" ++ string_of_list_ascii (pos_to_chars (- m) e)
      else string_of_list_ascii (pos_to_chars m e)
  end.

(** Truthiness of an optional string ([undefined], [null] and [""] are falsy). *)
Definition truthy_str (s : option string) : bool :=
  match s with Some v => negb (String.eqb v "") | None => false end.

(** [a || b] on optional strings. *)
Definition or_str (s : option string) (d : string) : string :=
  match s with Some v => if String.eqb v "" then d else v | None => d end.

End Js.

(* ------------------------------------------------------------------ *)
(** ** [URL] and [URLSearchParams]

    The query of a URL is held as the list of name-value pairs its
    [searchParams] hold.  A string stands for the UTF-8 bytes of the
    JavaScript string (a string with a lone surrogate, which the encoder
    would turn into U+FFFD, has no such representation). *)

Module Url.

(** The bytes the application/x-www-form-urlencoded serializer keeps as
    they are: ASCII alphanumerics and [*-._]. *)
Definition is_unreserved (c : ascii) : bool :=
  let n := nat_of_ascii c in
  ((48 <=? n)%nat && (n <=? 57)%nat) || ((65 <=? n)%nat && (n <=? 90)%nat)
  || ((97 <=? n)%nat && (n <=? 122)%nat)
  || (n =? 42)%nat || (n =? 45)%nat || (n =? 46)%nat || (n =? 95)%nat.

(** Upper-case hexadecimal digit of [n < 16]. *)
Definition hex_digit (n : nat) : ascii :=
  ascii_of_nat (if (n <? 10)%nat then 48 + n else 55 + n)%nat.

Definition encode_byte (c : ascii) : list ascii :=
  if is_unreserved c then [c]
  else if (nat_of_ascii c =? 32)%nat then ["+"%char]
  else ["%"%char; hex_digit (nat_of_ascii c / 16); hex_digit (nat_of_ascii c mod 16)].

Definition form_encode (s : string) : list ascii :=
  flat_map encode_byte (list_ascii_of_string s).

Fixpoint join_amp (ps : list (list ascii)) : list ascii :=
  match ps with
  | [] => []
  | [p] => p
  | p :: t => (p ++ "&"%char :: join_amp t)%list
  end.

(** The serializer: [name=value] pairs joined by [&]. *)
Definition form_serialize (l : list (string * string)) : string :=
  string_of_list_ascii
    (join_amp (map (fun '(n, v) => (form_encode n ++ "="%char :: form_encode v)%list) l)).

Definition hex_val (c : ascii) : option nat :=
  let n := nat_of_ascii c in
  if (48 <=? n)%nat && (n <=? 57)%nat then Some (n - 48)%nat
  else if (65 <=? n)%nat && (n <=? 70)%nat then Some (n - 55)%nat
  else if (97 <=? n)%nat && (n <=? 102)%nat then Some (n - 87)%nat
  else None.

(** Percent-decoding: [%] and two hex digits give a byte, any other byte is
    kept. *)
Fixpoint percent_decode (l : list ascii) : list ascii :=
  match l with
  | [] => []
  | x :: rest =>
      if Ascii.eqb x "%" then
        match rest with
        | h1 :: h2 :: t =>
            match hex_val h1, hex_val h2 with
            | Some a, Some b => ascii_of_nat (a * 16 + b) :: percent_decode t
            | _, _ => x :: percent_decode rest
            end
        | _ => x :: percent_decode rest
        end
      else x :: percent_decode rest
  end.

Definition plus_to_space (l : list ascii) : list ascii :=
  map (fun c => if Ascii.eqb c "+" then " "%char else c) l.

Definition form_decode (l : list ascii) : string :=
  string_of_list_ascii (percent_decode (plus_to_space l)).

(** Strict split on [&]. *)
Fixpoint split_amp (l : list ascii) : list (list ascii) :=
  match l with
  | [] => [[]]
  | x :: t =>
      let r := split_amp t in
      if Ascii.eqb x "&" then [] :: r
      else match r with p :: ps => (x :: p) :: ps | [] => [[x]] end
  end.

(** Name and value of a piece: around its first [=], the value empty when
    there is none. *)
Fixpoint break_eq (l : list ascii) : list ascii * list ascii :=
  match l with
  | [] => ([], [])
  | x :: t => if Ascii.eqb x "=" then ([], t)
              else let '(n, v) := break_eq t in (x :: n, v)
  end.

(** The parser; empty pieces are skipped. *)
Definition form_parse (s : string) : list (string * string) :=
  flat_map (fun p => match p with
                     | [] => []
                     | _ => let '(n, v) := break_eq p in [(form_decode n, form_decode v)]
                     end)
           (split_amp (list_ascii_of_string s)).

(** [searchParams.getAll(k)]. *)
Definition params_getAll (k : string) (l : list (string * string)) : list string :=
  map snd (filter (fun '(n, _) => String.eqb n k) l).

Fixpoint set_first (k v : string) (l : list (string * string)) : list (string * string) :=
  match l with
  | [] => []
  | (n, x) :: t =>
      if String.eqb n k then (n, v) :: filter (fun '(n', _) => negb (String.eqb n' k)) t
      else (n, x) :: set_first k v t
  end.

(** [searchParams.set(k, v)]: the first pair named [k] takes the value and
    the other ones are removed; with none, the pair is appended. *)
Definition params_set (k v : string) (l : list (string * string)) : list (string * string) :=
  if existsb (fun '(n, _) => String.eqb n k) l then set_first k v l else (l ++ [(k, v)])%list.

(** A parsed URL: everything before the query, the query's pairs, and the
    fragment (with its [#], or empty). *)
Record url := { url_prefix : string; url_query : list (string * string); url_fragment : string }.

(** [url.href]; an empty list of pairs serializes to no query at all. *)
Definition href (u : url) : string :=
  url_prefix u ++ (match url_query u with [] => "" | q => "?" ++ form_serialize q end)
  ++ url_fragment u.

Definition url_set (k v : string) (u : url) : url :=
  {| url_prefix := url_prefix u; url_query := params_set k v (url_query u);
     url_fragment := url_fragment u |}.

End Url.

(* ------------------------------------------------------------------ *)
(** ** LaunchController: the App component *)

Module App.

(** JSON values.  [localStorage] keeps the token payload as
    [JSON.stringify(token)] and [onMount] reads it back with [JSON.parse];
    the entry is held here as the JSON value it serialises.  Its text is
    never empty, so the entry's presence is what [if (tokenJSON)] tests. *)
Inductive jval :=
| JNull
| JBool (b : bool)
| JNum (x : Js.number)
| JStr (s : string)
| JArr (l : list jval)
| JObj (fields : list (string * jval)).

(** Truthiness of the parsed token, as [if (token)] tests it. *)
Definition truthy_json (v : option jval) : bool :=
  match v with
  | None | Some JNull => false
  | Some (JBool b) => b
  | Some (JNum Js.NaN) => false
  | Some (JNum (Js.Fin m _)) => negb (m =? 0)
  | Some (JNum (Js.Inf _)) => true
  | Some (JStr s) => negb (String.eqb s "")
  | Some (JArr _) | Some (JObj _) => true
  end.

(** [launchUrl.searchParams.get(...)]: [None] when the parameter is absent. *)
Record url_params := {
  iss : option string;
  launch : option string;
  code : option string
}.

(** The four [localStorage] keys the component uses. *)
Record storage := {
  ls_token : option jval;
  ls_iss : option string;
  ls_tokenEndpoint : option string;
  ls_currentLaunch : option string
}.

(** Component state: the two [let] variables and the shared store. *)
Record app := {
  baseUrl : option string;
  token : option jval;
  store : storage
}.

Definition empty_storage : storage :=
  {| ls_token := None; ls_iss := None; ls_tokenEndpoint := None;
     ls_currentLaunch := None |}.

(** A freshly mounted component over the persisted store. *)
Definition app_init (s : storage) : app :=
  {| baseUrl := None; token := None; store := s |}.

Definition clearAuthData (a : app) : app :=
  {| baseUrl := baseUrl a; token := None; store := empty_storage |}.

Definition set_currentLaunch (k : string) (a : app) : app :=
  {| baseUrl := baseUrl a; token := token a;
     store := {| ls_token := ls_token (store a); ls_iss := ls_iss (store a);
                 ls_tokenEndpoint := ls_tokenEndpoint (store a);
                 ls_currentLaunch := Some k |} |}.

Definition set_ls_iss (v : string) (a : app) : app :=
  {| baseUrl := baseUrl a; token := token a;
     store := {| ls_token := ls_token (store a); ls_iss := Some v;
                 ls_tokenEndpoint := ls_tokenEndpoint (store a);
                 ls_currentLaunch := ls_currentLaunch (store a) |} |}.

Definition set_ls_tokenEndpoint (v : string) (a : app) : app :=
  {| baseUrl := baseUrl a; token := token a;
     store := {| ls_token := ls_token (store a); ls_iss := ls_iss (store a);
                 ls_tokenEndpoint := Some v;
                 ls_currentLaunch := ls_currentLaunch (store a) |} |}.

Definition launch_key (i l : string) : string := i ++ ":" ++ l.

(** First block of [onMount]: new-launch detection. *)
Definition takeover (p : url_params) (a : app) : app :=
  match iss p, launch p with
  | Some i, Some l =>
      if Js.truthy_str (Some i) && Js.truthy_str (Some l) then
        let storedLaunch := ls_currentLaunch (store a) in
        let currentLaunchKey := launch_key i l in
        let a1 :=
          match storedLaunch with
          | Some k => if Js.truthy_str (Some k) && negb (String.eqb k currentLaunchKey)
                      then clearAuthData a else a
          | None => a
          end in
        set_currentLaunch currentLaunchKey a1
      else a
  | _, _ => a
  end.

(** Where a page load stops: the session is reused, a request is pending
    (token POST or discovery GET), or an [Error] is thrown. *)
Inductive mount_outcome :=
| Restored
| TokenRequest (endpoint code : string)
| NoTokenEndpoint
| MissingParams
| Discovery (iss launch : string).

(** The rest of [onMount], up to its first [await] (inside [makeTokenRequest]
    the token endpoint is read before the POST is sent). *)
Definition mount_rest (p : url_params) (a : app) : app * mount_outcome :=
  let tokenJSON := ls_token (store a) in
  let issLocalStorage := ls_iss (store a) in
  let a := match issLocalStorage with
           | Some v => if Js.truthy_str (Some v)
                       then {| baseUrl := Some v; token := token a; store := store a |}
                       else a
           | None => a
           end in
  let a := match tokenJSON with
           | Some v => {| baseUrl := baseUrl a; token := Some v; store := store a |}
           | None => a
           end in
  if truthy_json (token a) then (a, Restored)
  else
    match code p with
    | Some c =>
        if Js.truthy_str (Some c) then
          match ls_tokenEndpoint (store a) with
          | Some e => if Js.truthy_str (Some e) then (a, TokenRequest e c)
                      else (a, NoTokenEndpoint)
          | None => (a, NoTokenEndpoint)
          end
        else
          match iss p, launch p with
          | Some i, Some l =>
              if Js.truthy_str (Some i) && Js.truthy_str (Some l)
              then (set_ls_iss i a, Discovery i l) else (a, MissingParams)
          | _, _ => (a, MissingParams)
          end
    | None =>
        match iss p, launch p with
        | Some i, Some l =>
            if Js.truthy_str (Some i) && Js.truthy_str (Some l)
            then (set_ls_iss i a, Discovery i l) else (a, MissingParams)
        | _, _ => (a, MissingParams)
        end
    end.

Definition onMount (p : url_params) (a : app) : app * mount_outcome :=
  mount_rest p (takeover p a).

(** Continuation of [onMount] once the token POST answers with [data]. *)
Definition token_received (a : app) (data : jval) : app :=
  {| baseUrl := baseUrl a; token := Some data;
     store := {| ls_token := Some data; ls_iss := ls_iss (store a);
                 ls_tokenEndpoint := ls_tokenEndpoint (store a);
                 ls_currentLaunch := ls_currentLaunch (store a) |} |}.

(** Continuation of [onMount] once the discovery document answers: the
    token endpoint is stored before the browser navigates away. *)
Definition discovery_received (a : app) (tokenEndpoint : string) : app :=
  set_ls_tokenEndpoint tokenEndpoint a.

(** [JSON.stringify] is not needed; [String(v)], as [localStorage.setItem]
    applies it to a parsed JSON value. *)
Fixpoint js_string (v : jval) : string :=
  match v with
  | JNull => "null"
  | JBool b => if b then "true" else "false"
  | JNum x => Js.to_string x
  | JStr s => s
  | JArr l =>
      (fix go (l : list jval) : string :=
         match l with
         | [] => ""
         | [x] => match x with JNull => "" | _ => js_string x end
         | x :: t => (match x with JNull => "" | _ => js_string x end) ++ "," ++ go t
         end) l
  | JObj _ => "[object Object]"
  end.

(** The component's constants. *)
Definition redirectUrl : string := "http://localhost:5173".
Definition client_id : string := "b8ee6437-99b8-471b-8b98-c89ca1451150".
Definition auth_scope : string :=
  "openid fhirUser launch user/Observation.read user/Observation.write user/Patient.read".

(** [constructAuthUrl], on [new URL(authorizationEndpoint)] already parsed:
    the URL after its six [searchParams.set] calls, and its [href]. *)
Definition auth_url (url : Url.url) (launch iss : string) : Url.url :=
  Url.url_set "launch" launch
    (Url.url_set "aud" iss
      (Url.url_set "response_type" "code"
        (Url.url_set "scope" auth_scope
          (Url.url_set "redirect_uri" redirectUrl
            (Url.url_set "client_id" client_id url))))).

Definition constructAuthUrl (url : Url.url) (launch iss : string) : string :=
  Url.href (auth_url url launch iss).

(** The fields of the token request's form body, in order. *)
Definition token_form (code : string) : list (string * string) :=
  [("grant_type", "authorization_code"); ("code", code);
   ("redirect_uri", redirectUrl); ("client_id", client_id)].

(** [makeTokenRequest(code)] up to its [await]: the POST's target and its
    form body, or [None] when it throws for a missing token endpoint. *)
Definition makeTokenRequest (a : app) (code : string) : option (string * string) :=
  let tokenEndpoint := ls_tokenEndpoint (store a) in
  if negb (Js.truthy_str tokenEndpoint) then None
  else
    match tokenEndpoint with
    | Some e =>
        Some (e, Url.form_serialize (token_form code))
    | None => None
    end.

(** The discovery continuation on the document's [token_endpoint] field as
    it is ([None] when the field is absent): [setItem] stores [String(v)]. *)
Definition discovery_document_received (a : app) (token_endpoint : option jval) : app :=
  discovery_received a (match token_endpoint with Some v => js_string v | None => "undefined" end).

End App.

(* ------------------------------------------------------------------ *)
(** ** ObservationFeed: the ObservationViewer component *)

Module Feed.

(** The parts of the FHIR R4 types ([fhir/r4]) that the component reads or
    builds. *)
Record coding := { cd_system : option string; cd_code : option string;
                   cd_display : option string }.
Record codeable := { cc_coding : option (list coding); cc_text : option string }.
Record quantity := { q_value : option Js.number; q_unit : option string;
                     q_system : option string; q_code : option string }.
Record obs_component := { cp_code : option codeable;
                      cp_valueQuantity : option quantity }.
Record observation := {
  resourceType : string;
  id : option string;
  status : option string;
  category : option (list codeable);
  code : option codeable;
  subject : option string;          (* [subject.reference] *)
  effectiveDateTime : option string;
  valueQuantity : option quantity;
  valueString : option string;
  component : option (list obs_component)
}.
Record bundle_entry := { resource : option observation }.
Record bundle_link := { relation : string; url : string }.
Record bundle := { entry : option (list bundle_entry);
                   link : option (list bundle_link) }.

(** The component's [let] variables. *)
Record feed := {
  vitalObservations : option bundle;
  loading : bool;
  error : option string;
  showCreateForm : bool;
  creating : bool;
  createError : option string;
  createSuccess : bool;
  currentPage : nat;
  itemsPerPage : nat;
  displayedObservations : list bundle_entry;
  allObservations : list bundle_entry;
  isLoadingMore : bool;
  hasMoreOnServer : bool;
  nextUrl : option string;
  temperatureValue : string;
  lastFetchTime : Z
}.

Definition set_vitalObservations (v : option bundle) (st : feed) : feed :=
  {| vitalObservations := v; loading := loading st; error := error st; showCreateForm := showCreateForm st; creating := creating st; createError := createError st; createSuccess := createSuccess st; currentPage := currentPage st; itemsPerPage := itemsPerPage st; displayedObservations := displayedObservations st; allObservations := allObservations st; isLoadingMore := isLoadingMore st; hasMoreOnServer := hasMoreOnServer st; nextUrl := nextUrl st; temperatureValue := temperatureValue st; lastFetchTime := lastFetchTime st |}.
Definition set_loading (v : bool) (st : feed) : feed :=
  {| vitalObservations := vitalObservations st; loading := v; error := error st; showCreateForm := showCreateForm st; creating := creating st; createError := createError st; createSuccess := createSuccess st; currentPage := currentPage st; itemsPerPage := itemsPerPage st; displayedObservations := displayedObservations st; allObservations := allObservations st; isLoadingMore := isLoadingMore st; hasMoreOnServer := hasMoreOnServer st; nextUrl := nextUrl st; temperatureValue := temperatureValue st; lastFetchTime := lastFetchTime st |}.
Definition set_error (v : option string) (st : feed) : feed :=
  {| vitalObservations := vitalObservations st; loading := loading st; error := v; showCreateForm := showCreateForm st; creating := creating st; createError := createError st; createSuccess := createSuccess st; currentPage := currentPage st; itemsPerPage := itemsPerPage st; displayedObservations := displayedObservations st; allObservations := allObservations st; isLoadingMore := isLoadingMore st; hasMoreOnServer := hasMoreOnServer st; nextUrl := nextUrl st; temperatureValue := temperatureValue st; lastFetchTime := lastFetchTime st |}.
Definition set_showCreateForm (v : bool) (st : feed) : feed :=
  {| vitalObservations := vitalObservations st; loading := loading st; error := error st; showCreateForm := v; creating := creating st; createError := createError st; createSuccess := createSuccess st; currentPage := currentPage st; itemsPerPage := itemsPerPage st; displayedObservations := displayedObservations st; allObservations := allObservations st; isLoadingMore := isLoadingMore st; hasMoreOnServer := hasMoreOnServer st; nextUrl := nextUrl st; temperatureValue := temperatureValue st; lastFetchTime := lastFetchTime st |}.
Definition set_creating (v : bool) (st : feed) : feed :=
  {| vitalObservations := vitalObservations st; loading := loading st; error := error st; showCreateForm := showCreateForm st; creating := v; createError := createError st; createSuccess := createSuccess st; currentPage := currentPage st; itemsPerPage := itemsPerPage st; displayedObservations := displayedObservations st; allObservations := allObservations st; isLoadingMore := isLoadingMore st; hasMoreOnServer := hasMoreOnServer st; nextUrl := nextUrl st; temperatureValue := temperatureValue st; lastFetchTime := lastFetchTime st |}.
Definition set_createError (v : option string) (st : feed) : feed :=
  {| vitalObservations := vitalObservations st; loading := loading st; error := error st; showCreateForm := showCreateForm st; creating := creating st; createError := v; createSuccess := createSuccess st; currentPage := currentPage st; itemsPerPage := itemsPerPage st; displayedObservations := displayedObservations st; allObservations := allObservations st; isLoadingMore := isLoadingMore st; hasMoreOnServer := hasMoreOnServer st; nextUrl := nextUrl st; temperatureValue := temperatureValue st; lastFetchTime := lastFetchTime st |}.
Definition set_createSuccess (v : bool) (st : feed) : feed :=
  {| vitalObservations := vitalObservations st; loading := loading st; error := error st; showCreateForm := showCreateForm st; creating := creating st; createError := createError st; createSuccess := v; currentPage := currentPage st; itemsPerPage := itemsPerPage st; displayedObservations := displayedObservations st; allObservations := allObservations st; isLoadingMore := isLoadingMore st; hasMoreOnServer := hasMoreOnServer st; nextUrl := nextUrl st; temperatureValue := temperatureValue st; lastFetchTime := lastFetchTime st |}.
Definition set_currentPage (v : nat) (st : feed) : feed :=
  {| vitalObservations := vitalObservations st; loading := loading st; error := error st; showCreateForm := showCreateForm st; creating := creating st; createError := createError st; createSuccess := createSuccess st; currentPage := v; itemsPerPage := itemsPerPage st; displayedObservations := displayedObservations st; allObservations := allObservations st; isLoadingMore := isLoadingMore st; hasMoreOnServer := hasMoreOnServer st; nextUrl := nextUrl st; temperatureValue := temperatureValue st; lastFetchTime := lastFetchTime st |}.
Definition set_itemsPerPage (v : nat) (st : feed) : feed :=
  {| vitalObservations := vitalObservations st; loading := loading st; error := error st; showCreateForm := showCreateForm st; creating := creating st; createError := createError st; createSuccess := createSuccess st; currentPage := currentPage st; itemsPerPage := v; displayedObservations := displayedObservations st; allObservations := allObservations st; isLoadingMore := isLoadingMore st; hasMoreOnServer := hasMoreOnServer st; nextUrl := nextUrl st; temperatureValue := temperatureValue st; lastFetchTime := lastFetchTime st |}.
Definition set_displayedObservations (v : list bundle_entry) (st : feed) : feed :=
  {| vitalObservations := vitalObservations st; loading := loading st; error := error st; showCreateForm := showCreateForm st; creating := creating st; createError := createError st; createSuccess := createSuccess st; currentPage := currentPage st; itemsPerPage := itemsPerPage st; displayedObservations := v; allObservations := allObservations st; isLoadingMore := isLoadingMore st; hasMoreOnServer := hasMoreOnServer st; nextUrl := nextUrl st; temperatureValue := temperatureValue st; lastFetchTime := lastFetchTime st |}.
Definition set_allObservations (v : list bundle_entry) (st : feed) : feed :=
  {| vitalObservations := vitalObservations st; loading := loading st; error := error st; showCreateForm := showCreateForm st; creating := creating st; createError := createError st; createSuccess := createSuccess st; currentPage := currentPage st; itemsPerPage := itemsPerPage st; displayedObservations := displayedObservations st; allObservations := v; isLoadingMore := isLoadingMore st; hasMoreOnServer := hasMoreOnServer st; nextUrl := nextUrl st; temperatureValue := temperatureValue st; lastFetchTime := lastFetchTime st |}.
Definition set_isLoadingMore (v : bool) (st : feed) : feed :=
  {| vitalObservations := vitalObservations st; loading := loading st; error := error st; showCreateForm := showCreateForm st; creating := creating st; createError := createError st; createSuccess := createSuccess st; currentPage := currentPage st; itemsPerPage := itemsPerPage st; displayedObservations := displayedObservations st; allObservations := allObservations st; isLoadingMore := v; hasMoreOnServer := hasMoreOnServer st; nextUrl := nextUrl st; temperatureValue := temperatureValue st; lastFetchTime := lastFetchTime st |}.
Definition set_hasMoreOnServer (v : bool) (st : feed) : feed :=
  {| vitalObservations := vitalObservations st; loading := loading st; error := error st; showCreateForm := showCreateForm st; creating := creating st; createError := createError st; createSuccess := createSuccess st; currentPage := currentPage st; itemsPerPage := itemsPerPage st; displayedObservations := displayedObservations st; allObservations := allObservations st; isLoadingMore := isLoadingMore st; hasMoreOnServer := v; nextUrl := nextUrl st; temperatureValue := temperatureValue st; lastFetchTime := lastFetchTime st |}.
Definition set_nextUrl (v : option string) (st : feed) : feed :=
  {| vitalObservations := vitalObservations st; loading := loading st; error := error st; showCreateForm := showCreateForm st; creating := creating st; createError := createError st; createSuccess := createSuccess st; currentPage := currentPage st; itemsPerPage := itemsPerPage st; displayedObservations := displayedObservations st; allObservations := allObservations st; isLoadingMore := isLoadingMore st; hasMoreOnServer := hasMoreOnServer st; nextUrl := v; temperatureValue := temperatureValue st; lastFetchTime := lastFetchTime st |}.
Definition set_temperatureValue (v : string) (st : feed) : feed :=
  {| vitalObservations := vitalObservations st; loading := loading st; error := error st; showCreateForm := showCreateForm st; creating := creating st; createError := createError st; createSuccess := createSuccess st; currentPage := currentPage st; itemsPerPage := itemsPerPage st; displayedObservations := displayedObservations st; allObservations := allObservations st; isLoadingMore := isLoadingMore st; hasMoreOnServer := hasMoreOnServer st; nextUrl := nextUrl st; temperatureValue := v; lastFetchTime := lastFetchTime st |}.
Definition set_lastFetchTime (v : Z) (st : feed) : feed :=
  {| vitalObservations := vitalObservations st; loading := loading st; error := error st; showCreateForm := showCreateForm st; creating := creating st; createError := createError st; createSuccess := createSuccess st; currentPage := currentPage st; itemsPerPage := itemsPerPage st; displayedObservations := displayedObservations st; allObservations := allObservations st; isLoadingMore := isLoadingMore st; hasMoreOnServer := hasMoreOnServer st; nextUrl := nextUrl st; temperatureValue := temperatureValue st; lastFetchTime := v |}.

Definition CACHE_DURATION : Z := 30000.

Definition initial : feed :=
  {| vitalObservations := None; loading := true; error := None;
     showCreateForm := false; creating := false; createError := None;
     createSuccess := false; currentPage := 0; itemsPerPage := 20;
     displayedObservations := []; allObservations := [];
     isLoadingMore := false; hasMoreOnServer := true; nextUrl := None;
     temperatureValue := ""; lastFetchTime := 0 |}.

(** A network answer: the parsed body, or a failure with its text. *)
Inductive response :=
| Ok (b : bundle)
| Err (reason : string).

Definition getVitalsEntries (b : bundle) : list bundle_entry :=
  match entry b with Some l => l | None => [] end.

(** [bundle.link?.find(link => link.relation === 'next')?.url || null] *)
Definition next_link (b : bundle) : option string :=
  match link b with
  | Some ls =>
      match find (fun k => String.eqb (relation k) "next") ls with
      | Some k => if String.eqb (url k) "" then None else Some (url k)
      | None => None
      end
  | None => None
  end.

(** [${q.value}] in a template literal. *)
Definition quantity_value (q : quantity) : string :=
  match q_value q with Some x => Js.to_string x | None => "undefined" end.

(** [c.code?.coding?.some((coding) => coding.code === k)] *)
Definition has_code (k : string) (c : obs_component) : bool :=
  match cp_code c with
  | Some cc =>
      match cc_coding cc with
      | Some l => existsb (fun cd => match cd_code cd with
                                     | Some x => String.eqb x k | None => false end) l
      | None => false
      end
  | None => false
  end.

Definition bpDisplay (observation : observation) : string :=
  let bp :=
    match component observation with
    | Some ((_ :: _) as cs) =>
        let systolic := find (has_code "8480-6") cs in
        let diastolic := find (has_code "8462-4") cs in
        match option_map cp_valueQuantity systolic, option_map cp_valueQuantity diastolic with
        | Some (Some sq), Some (Some dq) =>
            Some (quantity_value sq ++ "/" ++ quantity_value dq ++ " "
                  ++ Js.or_str (q_unit sq) "mmHg")
        | _, _ => None
        end
    | _ => None
    end in
  match bp with
  | Some r => r
  | None =>
      match valueQuantity observation with
      | Some q => quantity_value q ++ " " ++ Js.or_str (q_unit q) ""
      | None =>
          match valueString observation with
          | Some v => if Js.truthy_str (Some v) then v else "Not available"
          | None => "Not available"
          end
      end
  end.

(** The pair of quantities the blood-pressure branch of [bpDisplay] uses:
    those of the first component coded 8480-6 and of the first one coded
    8462-4, when both carry one. *)
Definition bp_quantities (o : observation) : option (quantity * quantity) :=
  match component o with
  | Some cs =>
      match find (has_code "8480-6") cs, find (has_code "8462-4") cs with
      | Some s, Some d =>
          match cp_valueQuantity s, cp_valueQuantity d with
          | Some sq, Some dq => Some (sq, dq)
          | _, _ => None
          end
      | _, _ => None
      end
  | None => None
  end.

(** The resource built by [createTemperatureObservation] from the form's
    text and the submission instant [new Date().toISOString()]. *)
Definition temperatureObservation (patientId temperatureValue now_iso : string)
  : observation :=
  {| resourceType := "Observation";
     id := None;
     status := Some "final";
     category := Some [{| cc_coding := Some [{| cd_system := Some "http://terminology.hl7.org/CodeSystem/observation-category";
                                                cd_code := Some "vital-signs";
                                                cd_display := Some "Vital Signs" |}];
                          cc_text := Some "Vital Signs" |}];
     code := Some {| cc_coding := Some [{| cd_system := Some "http://loinc.org";
                                           cd_code := Some "8331-1";
                                           cd_display := None |}];
                     cc_text := Some "Temperature Oral" |};
     subject := Some ("Patient/" ++ patientId);
     effectiveDateTime := Some now_iso;
     valueQuantity := Some {| q_value := Some (Js.parseFloat temperatureValue);
                              q_unit := Some "degC";
                              q_system := Some "http://unitsofmeasure.org";
                              q_code := Some "Cel" |};
     valueString := None;
     component := None |}.

Definition with_id (i : string) (o : observation) : observation :=
  {| resourceType := resourceType o; id := Some i; status := status o;
     category := category o; code := code o; subject := subject o;
     effectiveDateTime := effectiveDateTime o; valueQuantity := valueQuantity o;
     valueString := valueString o; component := component o |}.

(** What [axios.post] can reject with, as the [catch] block inspects it. *)
Inductive post_error :=
| AxiosError (status : option Z) (diagnostics : option string) (message : string)
| ErrorObject (message : string)
| OtherThrown.

Definition create_error_message (e : post_error) : string :=
  match e with
  | AxiosError st d m =>
      "HTTP " ++ (match st with Some n => Js.to_string (Js.Fin n 0)
                                | None => "undefined" end)
      ++ ": " ++ Js.or_str d m
  | ErrorObject m => m
  | OtherThrown => "Failed to create temperature observation"
  end.

(** The POST's outcome: success with [response.data] ([None] when the body
    is empty; otherwise the body's [id], if any), or a rejection. *)
Inductive post_result :=
| PostOk (data : option (option string))
| PostErr (e : post_error).

(** * Sorting

    [new Date(s).getTime()] is taken as a parameter [date_time] ([None] for
    an invalid date, whose time is [NaN]); the comparator and
    [Array.prototype.sort] are modelled on top of it. *)
Section WithDate.

Variable date_time : string -> option Z.

(** [new Date(obs?.effectiveDateTime || "").getTime()] *)
Definition entry_time (e : bundle_entry) : option Z :=
  date_time (Js.or_str (match resource e with
                        | Some o => effectiveDateTime o | None => None end) "").

(** The comparator [(a, b) => dateB - dateA] as SortCompare sees it:
    a [NaN] result counts as [+0]. *)
Definition sort_compare (a b : bundle_entry) : Z :=
  match entry_time b, entry_time a with
  | Some tb, Some ta => tb - ta
  | _, _ => 0
  end.

Fixpoint insert_entry (x : bundle_entry) (l : list bundle_entry) : list bundle_entry :=
  match l with
  | [] => [x]
  | y :: r => if sort_compare x y <? 0 then x :: y :: r else y :: insert_entry x r
  end.

(** [entries.sort(cmp)]: a stable insertion sort.  ECMAScript requires the
    sort to be stable, so whenever the comparator is consistent every
    conforming engine returns this list. *)
Definition js_sort (l : list bundle_entry) : list bundle_entry :=
  fold_left (fun acc x => insert_entry x acc) l [].

Definition window (st : feed) : nat := ((currentPage st + 1) * itemsPerPage st)%nat.

Definition updateDisplayedObservations (st : feed) : feed :=
  let st := match allObservations st, vitalObservations st with
            | [], Some b => set_allObservations (js_sort (getVitalsEntries b)) st
            | _, _ => st
            end in
  set_displayedObservations (firstn (window st) (allObservations st)) st.

(** The reactive statement, flushed after a handler assigns
    [vitalObservations]. *)
Definition reactive (st : feed) : feed :=
  match vitalObservations st with
  | Some _ => updateDisplayedObservations st
  | None => st
  end.

(** [getVitals(forceRefresh)]: the cached bundle when it is fresh and the
    call is not forced; otherwise the GET, whose answer is [r]. *)
Definition getVitals_cache (forceRefresh : bool) (st : feed) (now : Z) : option bundle :=
  if forceRefresh then None
  else match vitalObservations st with
       | Some b => if now - lastFetchTime st <? CACHE_DURATION then Some b else None
       | None => None
       end.

Definition getVitals (forceRefresh : bool) (st : feed) (now : Z) (r : response)
  : feed * response :=
  match getVitals_cache forceRefresh st now with
  | Some b => (st, Ok b)
  | None =>
      match r with
      | Ok b =>
          let nu := next_link b in
          (set_hasMoreOnServer (Js.truthy_str nu)
             (set_nextUrl nu (set_lastFetchTime now st)), Ok b)
      | Err m => (st, Err ("Failed to fetch vital signs: " ++ m))
      end
  end.

(** [onMount]: [vitalObservations = await getVitals()]. *)
Definition mount (st : feed) (now : Z) (r : response) : feed :=
  let '(st, res) := getVitals false st now r in
  match res with
  | Ok b => reactive (set_loading false (set_vitalObservations (Some b) st))
  | Err m => set_loading false (set_error (Some m) st)
  end.

(** [fetchMoreFromServer], with [r] the answer to the GET of [nextUrl]. *)
Definition fetchMoreFromServer (st : feed) (r : response) : feed * option bundle :=
  if negb (Js.truthy_str (nextUrl st)) || isLoadingMore st then (st, None)
  else
    match r with
    | Ok b =>
        let nu := next_link b in
        (set_isLoadingMore false
           (set_hasMoreOnServer (Js.truthy_str nu) (set_nextUrl nu st)), Some b)
    | Err _ => (set_isLoadingMore false st, None)
    end.

Definition loadMore (st : feed) (r : response) : feed :=
  let currentlyNeeded := ((currentPage st + 2) * itemsPerPage st)%nat in
  let st :=
    if (List.length (allObservations st) <? currentlyNeeded)%nat
       && hasMoreOnServer st && negb (isLoadingMore st) then
      let '(st, moreData) := fetchMoreFromServer st r in
      match moreData with
      | Some b =>
          let sortedNewEntries := js_sort (getVitalsEntries b) in
          set_allObservations (js_sort (allObservations st ++ sortedNewEntries)) st
      | None => st
      end
    else st in
  updateDisplayedObservations (set_currentPage (S (currentPage st)) st).

(** The part of [loadMore] before [currentPage++]. *)
Definition loadMore_merge (st : feed) (r : response) : feed :=
  let currentlyNeeded := ((currentPage st + 2) * itemsPerPage st)%nat in
  if (List.length (allObservations st) <? currentlyNeeded)%nat
     && hasMoreOnServer st && negb (isLoadingMore st) then
    let '(st, moreData) := fetchMoreFromServer st r in
    match moreData with
    | Some b =>
        set_allObservations
          (js_sort (allObservations st ++ js_sort (getVitalsEntries b))) st
    | None => st
    end
  else st.

Definition hasMore (st : feed) : bool :=
  (window st <? List.length (allObservations st))%nat || hasMoreOnServer st.

Definition validation_message : string := "Please enter a valid temperature value".

(** [createTemperatureObservation] up to its [await]: the state and the
    POST it sends, if any. *)
Definition createTemperatureObservation (patientId : string) (st : feed) (now_iso : string)
  : feed * option observation :=
  let tv := temperatureValue st in
  if negb (Js.truthy_str (Some tv)) || Js.isNaN (Js.parseFloat tv) then
    (set_createError (Some validation_message) st, None)
  else
    (set_createSuccess false (set_createError None (set_creating true st)),
     Some (temperatureObservation patientId tv now_iso)).

(** Delay of the reconciliation timer, in milliseconds. *)
Definition reconcile_delay : nat := 1000.

(** The rest of [createTemperatureObservation] once the POST of [obs]
    settles; [now_ms] is [Date.now()].  Also returns the delay of the timer
    it schedules. *)
Definition create_resolved (st : feed) (obs : observation) (r : post_result) (now_ms : Z)
  : feed * option nat :=
  match r with
  | PostOk data =>
      let rid := match data with Some i => i | None => None end in
      let newEntry :=
        {| resource := Some (with_id (Js.or_str rid ("temp-" ++ Js.to_string (Js.Fin now_ms 0)))
                                     obs) |} in
      let st := set_allObservations (newEntry :: allObservations st) st in
      let st := match vitalObservations st with
                | Some b => set_vitalObservations
                              (Some {| entry := Some (newEntry :: getVitalsEntries b);
                                       link := link b |}) st
                | None => st
                end in
      let st := updateDisplayedObservations st in
      let st := set_temperatureValue "" (set_showCreateForm false (set_createSuccess true st)) in
      (reactive (set_creating false st), Some reconcile_delay)
  | PostErr e =>
      (set_creating false (set_createError (Some (create_error_message e)) st), None)
  end.

(** The entry [createTemperatureObservation] prepends once the POST of
    [obs] succeeds with body [data], at time [now_ms]. *)
Definition optimistic_entry (obs : observation) (data : option (option string)) (now_ms : Z)
  : bundle_entry :=
  {| resource := Some (with_id (Js.or_str (match data with Some i => i | None => None end)
                                          ("temp-" ++ Js.to_string (Js.Fin now_ms 0))) obs) |}.

(** The timer's callback: [getVitals(true).then(bundle => ...)]; a rejected
    fetch skips the callback. *)
Definition reconcile (st : feed) (now : Z) (r : response) : feed :=
  let '(st, res) := getVitals true st now r in
  match res with
  | Ok b =>
      let st := set_vitalObservations (Some b) st in
      let st := set_allObservations [] st in
      let st := set_currentPage 0 st in
      reactive (updateDisplayedObservations st)
  | Err _ => st
  end.

Definition toggleCreateForm (st : feed) : feed :=
  set_createSuccess false (set_createError None (set_showCreateForm (negb (showCreateForm st)) st)).

(** Both entries are dated and [x] is not older than [y]. *)
Definition not_older (x y : bundle_entry) : Prop :=
  exists tx ty, entry_time x = Some tx /\ entry_time y = Some ty /\ ty <= tx.

Definition dated (e : bundle_entry) : Prop := entry_time e <> None.

(** The window shows the head of the collection, the collection is only
    empty when the stored bundle is, and the page size never changes. *)
Definition Inv (st : feed) : Prop :=
  displayedObservations st = firstn (window st) (allObservations st) /\
  (allObservations st = [] -> forall b, vitalObservations st = Some b ->
     getVitalsEntries b = []) /\
  itemsPerPage st = 20%nat.

(** [formatDateTime]; [toLocaleString] formats a valid instant in the
    browser's locale, and an invalid [Date] prints as "Invalid Date". *)
Definition formatDateTime (toLocaleString : Z -> string) (dateTime : option string) : string :=
  if negb (Js.truthy_str dateTime) then "Unknown date"
  else match dateTime with
       | Some d => match date_time d with
                   | Some t => toLocaleString t
                   | None => "Invalid Date"
                   end
       | None => "Unknown date"
       end.

(** The three lines of a card in the [{#each displayedObservations}] block:
    name ([code?.text ?? "Unknown vital sign"]), date and value. *)
Definition vital_card (toLocaleString : Z -> string) (e : bundle_entry) : string * string * string :=
  (match resource e with
   | Some o => match code o with
               | Some c => match cc_text c with Some t => t | None => "Unknown vital sign" end
               | None => "Unknown vital sign"
               end
   | None => "Unknown vital sign"
   end,
   formatDateTime toLocaleString (match resource e with Some o => effectiveDateTime o | None => None end),
   match resource e with Some o => bpDisplay o | None => "Not available" end).

(** Every event the component reacts to. *)
Inductive step (patientId : string) : feed -> feed -> Prop :=
| StepMount st now r : step patientId st (mount st now r)
| StepLoadMore st r : step patientId st (loadMore st r)
| StepCreate st now_iso :
    step patientId st (fst (createTemperatureObservation patientId st now_iso))
| StepCreateResolved st obs r now_ms : step patientId st (fst (create_resolved st obs r now_ms))
| StepReconcile st now r : step patientId st (reconcile st now r)
| StepToggle st : step patientId st (toggleCreateForm st)
| StepInput st v : step patientId st (set_temperatureValue v st)
| StepReactive st : step patientId st (reactive st).

Inductive reachable (patientId : string) : feed -> Prop :=
| ReachInit : reachable patientId initial
| ReachStep st st' : reachable patientId st -> step patientId st st' -> reachable patientId st'.

End WithDate.
End Feed.

(* ------------------------------------------------------------------ *)
(** ** PatientBanner *)

Module Banner.
Import App.

(** An entry of [patientCache]. *)
Record cache_entry := { data : jval; timestamp : Z }.

(** The component's [let] variables; [patientCache], a JS object, as the
    list of its own properties in insertion order (its keys all contain a
    ["-"], so none is a property of [Object.prototype]). *)
Record banner := {
  patientResource : option jval;
  loading : bool;
  patientCache : list (string * cache_entry)
}.

Definition CACHE_DURATION : Z := 300000.

Definition initial_banner : banner :=
  {| patientResource := None; loading := true; patientCache := [] |}.

Definition cacheKey (baseUrl patient : string) : string := baseUrl ++ "-" ++ patient.

Definition patient_url (baseUrl patient : string) : string :=
  baseUrl ++ "/Patient/" ++ patient.

Fixpoint obj_get (k : string) (l : list (string * cache_entry)) : option cache_entry :=
  match l with
  | [] => None
  | (n, e) :: t => if String.eqb n k then Some e else obj_get k t
  end.

(** [obj[k] = e]: an existing property keeps its place. *)
Fixpoint obj_set (k : string) (e : cache_entry) (l : list (string * cache_entry))
  : list (string * cache_entry) :=
  match l with
  | [] => [(k, e)]
  | (n, x) :: t => if String.eqb n k then (n, e) :: t else (n, x) :: obj_set k e t
  end.

Definition set_patientCache (c : list (string * cache_entry)) (b : banner) : banner :=
  {| patientResource := patientResource b; loading := loading b; patientCache := c |}.

(** [getPatientData], with [r] the answer to the GET ([None] when it
    rejects): the state, the URL it GETs if it sends a request, and the
    patient it returns ([None] when it throws). *)
Definition getPatientData (b : banner) (baseUrl patient : string) (now : Z) (r : option jval)
  : banner * option string * option jval :=
  let key := cacheKey baseUrl patient in
  match obj_get key (patientCache b) with
  | Some e => if now - timestamp e <? CACHE_DURATION then (b, None, Some (data e))
              else match r with
                   | Some d => (set_patientCache (obj_set key {| data := d; timestamp := now |}
                                                          (patientCache b)) b,
                                Some (patient_url baseUrl patient), Some d)
                   | None => (b, Some (patient_url baseUrl patient), None)
                   end
  | None => match r with
            | Some d => (set_patientCache (obj_set key {| data := d; timestamp := now |}
                                                   (patientCache b)) b,
                         Some (patient_url baseUrl patient), Some d)
            | None => (b, Some (patient_url baseUrl patient), None)
            end
  end.

(** [onMount]: the patient is stored on success, [loading] is cleared in
    [finally]; also returns the request sent. *)
Definition onMount (b : banner) (baseUrl patient : string) (now : Z) (r : option jval)
  : banner * option string :=
  let '(b, req, res) := getPatientData b baseUrl patient now r in
  let b := match res with
           | Some d => {| patientResource := Some d; loading := loading b;
                          patientCache := patientCache b |}
           | None => b
           end in
  ({| patientResource := patientResource b; loading := false; patientCache := patientCache b |},
   req).

End Banner.

(* ------------------------------------------------------------------ *)
(** ** Concrete inputs *)

Module Samples.
Import Feed.

Definition blank_obs : observation :=
  {| resourceType := "Observation"; id := None; status := None;
     category := None; code := None; subject := None;
     effectiveDateTime := None; valueQuantity := None; valueString := None;
     component := None |}.

Definition with_value (vq : option quantity) (vs : option string)
  (cs : option (list obs_component)) (eff : option string) : observation :=
  {| resourceType := "Observation"; id := Some "obs-1"; status := Some "final";
     category := None; code := None; subject := None;
     effectiveDateTime := eff; valueQuantity := vq; valueString := vs;
     component := cs |}.

Definition loinc (k : string) : codeable :=
  {| cc_coding := Some [{| cd_system := Some "http://loinc.org"; cd_code := Some k;
                           cd_display := None |}];
     cc_text := None |}.

Definition qty (x : Js.number) (u : option string) : quantity :=
  {| q_value := Some x; q_unit := u; q_system := None; q_code := None |}.

(** Blood pressure 120/80 mmHg. *)
Definition bp_obs : observation :=
  with_value None None
    (Some [{| cp_code := Some (loinc "8480-6");
              cp_valueQuantity := Some (qty (Js.Fin 120 0) (Some "mmHg")) |};
           {| cp_code := Some (loinc "8462-4");
              cp_valueQuantity := Some (qty (Js.Fin 80 0) (Some "mmHg")) |}])
    None.

(** A temperature of 36.6 degC. *)
Definition temp_obs : observation :=
  with_value (Some (qty (Js.Fin 366 (-1)) (Some "degC"))) None None None.

(** No value at all. *)
Definition empty_obs : observation := with_value None None None None.

(** [valueString] present but empty. *)
Definition empty_string_obs : observation := with_value None (Some "") None None.

(** [Date.parse] on the instants [toISOString] produces,
    "YYYY-MM-DDTHH:MM:SSZ", as milliseconds since the epoch; every other
    string, the empty one among them, gives [None] ([NaN]).  JavaScript
    accepts more formats; the samples below only use these. *)
Definition days_from_civil (y m d : Z) : Z :=
  let y := if m <=? 2 then y - 1 else y in
  let era := y / 400 in
  let yoe := y - era * 400 in
  let doy := (153 * (if m >? 2 then m - 3 else m + 9) + 2) / 5 + d - 1 in
  let doe := yoe * 365 + yoe / 4 - yoe / 100 + doy in
  era * 146097 + doe - 719468.

Definition iso_date_time (s : string) : option Z :=
  match list_ascii_of_string s with
  | [y1; y2; y3; y4; c1; m1; m2; c2; d1; d2; t; h1; h2; c3; n1; n2; c4; s1; s2; z] =>
      if forallb Js.is_digit [y1; y2; y3; y4; m1; m2; d1; d2; h1; h2; n1; n2; s1; s2]
         && Ascii.eqb c1 "-" && Ascii.eqb c2 "-" && Ascii.eqb t "T"
         && Ascii.eqb c3 ":" && Ascii.eqb c4 ":" && Ascii.eqb z "Z" then
        let y := Js.digits_value [y1; y2; y3; y4] in
        let mo := Js.digits_value [m1; m2] in
        let d := Js.digits_value [d1; d2] in
        let h := Js.digits_value [h1; h2] in
        let mi := Js.digits_value [n1; n2] in
        let se := Js.digits_value [s1; s2] in
        if (1 <=? mo) && (mo <=? 12) && (1 <=? d) && (d <=? 31)
           && (h <? 24) && (mi <? 60) && (se <? 60) then
          Some ((((days_from_civil y mo d * 24 + h) * 60 + mi) * 60 + se) * 1000)
        else None
      else None
  | _ => None
  end.

Definition entry_of (o : observation) : bundle_entry := {| resource := Some o |}.

(** A reading without [effectiveDateTime], and a dated one. *)
Definition undated_entry : bundle_entry := entry_of temp_obs.
Definition dated_entry : bundle_entry :=
  entry_of (with_value (Some (qty (Js.Fin 375 (-1)) (Some "degC"))) None None
                       (Some "2024-03-01T08:30:00Z")).

(** A first bundle listing the undated reading before the dated one. *)
Definition mixed_bundle : bundle :=
  {| entry := Some [undated_entry; dated_entry]; link := None |}.

(** A later reading, and a two-page listing of dated readings. *)
Definition later_entry : bundle_entry :=
  entry_of (with_value (Some (qty (Js.Fin 372 (-1)) (Some "degC"))) None None
                       (Some "2024-03-02T09:00:00Z")).

Definition next_page_link : option (list bundle_link) :=
  Some [{| relation := "self"; url := "https://fhir.example/r4/Observation?patient=12724066" |};
        {| relation := "next"; url := "https://fhir.example/r4/Observation?page=2" |}].

Definition first_bundle : bundle := {| entry := Some [dated_entry]; link := next_page_link |}.
Definition second_bundle : bundle := {| entry := Some [later_entry]; link := None |}.

(** The feed once mounted on the first page of the two-page listing, and once
    mounted on a single-page listing. *)
Definition first_page : feed := mount iso_date_time initial 0 (Ok first_bundle).
Definition single_page : feed := mount iso_date_time initial 0 (Ok mixed_bundle).

(** The feed with [v] typed into the temperature field. *)
Definition typed (v : string) : feed := set_temperatureValue v initial.

(** A launch from the EHR, and an app whose storage holds another launch's
    session. *)
Definition ehr_launch : App.url_params :=
  {| App.iss := Some "https://fhir.example/r4"; App.launch := Some "xyz"; App.code := None |}.

Definition other_session : App.app :=
  App.app_init {| App.ls_token := Some (App.JStr "old-token");
                  App.ls_iss := Some "https://other.example/r4";
                  App.ls_tokenEndpoint := Some "https://other.example/token";
                  App.ls_currentLaunch := Some "https://other.example/r4:abc" |}.

(** The redirect back with an authorization code, and storage with a token
    endpoint but no token. *)
Definition code_redirect : App.url_params :=
  {| App.iss := None; App.launch := None; App.code := Some "auth-code-123" |}.

Definition endpoint_only : App.storage :=
  {| App.ls_token := None; App.ls_iss := Some "https://fhir.example/r4";
     App.ls_tokenEndpoint := Some "https://fhir.example/token";
     App.ls_currentLaunch := Some "https://fhir.example/r4:xyz" |}.

(** A reading given as a string. *)
Definition string_obs : observation := with_value None (Some "98.6 F") None None.

End Samples.

(* ================================================================== *)
(** * Properties of the launch controller *)

Module LaunchProps.
Import App.

Lemma truthy_nonempty (s : string) : s <> "" -> Js.truthy_str (Some s) = true.
Proof.
  intros H. unfold Js.truthy_str. apply String.eqb_neq in H. now rewrite H.
Qed.

Lemma mount_rest_keeps_launch (p : url_params) (a : app) :
  ls_currentLaunch (store (fst (mount_rest p a))) = ls_currentLaunch (store a).
Proof.
  destruct a as [bu tk [t i te cl]]; unfold mount_rest; simpl.
  destruct i as [i|]; [destruct (Js.truthy_str (Some i))|];
  destruct t as [t|]; simpl;
  repeat match goal with
  | |- context [if ?b then _ else _] => destruct b
  | |- context [match ?x with Some _ => _ | None => _ end] => destruct x
  end; reflexivity.
Qed.

Lemma set_currentLaunch_same (k : string) (a : app) :
  ls_currentLaunch (store a) = Some k -> set_currentLaunch k a = a.
Proof.
  destruct a as [bu tk [t i te cl]]; simpl; intros ->; reflexivity.
Qed.

(** C1: when the URL carries an issuer and a launch parameter, [onMount]
    first runs the new-launch check: a stored launch key that differs from
    [issuer:launch] clears the persisted token, issuer, token endpoint and
    launch key and the in-memory token, and the new key is then stored; a
    stored key equal to the current one changes nothing, so a second load
    with the same pair, after whatever the first load did, does not clear
    anything. *)
Theorem launch_takeover (p : url_params) (a : app) (i l : string) :
  iss p = Some i -> i <> "" -> launch p = Some l -> l <> "" ->
  let a1 := takeover p a in
  onMount p a = mount_rest p a1 /\
  ls_currentLaunch (store a1) = Some (launch_key i l) /\
  (forall k, ls_currentLaunch (store a) = Some k -> k <> "" -> k <> launch_key i l ->
     store a1 = {| ls_token := None; ls_iss := None; ls_tokenEndpoint := None;
                   ls_currentLaunch := Some (launch_key i l) |}
     /\ token a1 = None) /\
  (ls_currentLaunch (store a) = Some (launch_key i l) -> a1 = a) /\
  (forall a', ls_currentLaunch (store a') = ls_currentLaunch (store (fst (onMount p a))) ->
     takeover p a' = a').
Proof.
  intros Hi Hi' Hl Hl' a1.
  assert (Ht : forall b, takeover p b =
    set_currentLaunch (launch_key i l)
      (match ls_currentLaunch (store b) with
       | Some k => if Js.truthy_str (Some k) && negb (String.eqb k (launch_key i l))
                   then clearAuthData b else b
       | None => b end)).
  { intros b. unfold takeover. rewrite Hi, Hl, (truthy_nonempty i), (truthy_nonempty l); auto. }
  assert (Hkey : forall b, ls_currentLaunch (store (takeover p b)) = Some (launch_key i l)).
  { intros b. rewrite Ht. reflexivity. }
  split; [reflexivity|]. split; [apply Hkey|]. split; [|split].
  - intros k Hk Hk' Hne. unfold a1. rewrite Ht, Hk, (truthy_nonempty k Hk').
    apply String.eqb_neq in Hne. rewrite Hne. simpl. auto.
  - intros Hk. unfold a1. rewrite Ht, Hk, String.eqb_refl, andb_false_r.
    now apply set_currentLaunch_same.
  - intros a' Ha'. unfold onMount in Ha'. rewrite mount_rest_keeps_launch, Hkey in Ha'.
    rewrite Ht, Ha', String.eqb_refl, andb_false_r. now apply set_currentLaunch_same.
Qed.

Lemma takeover_token_none (p : url_params) (a : app) :
  token a = None -> token (takeover p a) = None.
Proof.
  intros H. unfold takeover.
  destruct (iss p), (launch p); auto.
  destruct (_ && _); auto.
  destruct (ls_currentLaunch (store a)) as [k|]; simpl; auto.
  destruct (_ && _); simpl; auto.
Qed.

Lemma mount_rest_store_token (p : url_params) (a : app) :
  token a = None ->
  (snd (mount_rest p a) = Restored <-> truthy_json (ls_token (store a)) = true) /\
  (forall c, code p = Some c -> c <> "" -> truthy_json (ls_token (store a)) = false ->
     snd (mount_rest p a) =
       match ls_tokenEndpoint (store a) with
       | Some e => if Js.truthy_str (Some e) then TokenRequest e c else NoTokenEndpoint
       | None => NoTokenEndpoint
       end).
Proof.
  destruct a as [bu tk [t i te cl]]; simpl; intros ->.
  split.
  - unfold mount_rest; simpl.
    destruct i as [i|]; [destruct (negb (String.eqb i "")) eqn:Ei|]; simpl;
    repeat (simpl; match goal with
    | |- context [match ?x with Some _ => _ | None => _ end] => destruct x
    | |- context [if ?b then _ else _] => destruct b eqn:?
    end); simpl; split; intros; first [reflexivity | discriminate].
  - intros c Hc Hc' Hf. apply String.eqb_neq in Hc'.
    unfold mount_rest; simpl in *. rewrite Hc, Hc'.
    destruct i as [i|]; [destruct (negb (String.eqb i ""))|];
    destruct t as [t|]; simpl in Hf |- *; try rewrite Hf;
    destruct te as [e|]; try destruct (negb (String.eqb e "")); reflexivity.
Qed.

(** C2 (counterexample): a persisted token and an authorization [code] in
    the URL at the same time; the load still stops at session
    restoration. *)
Lemma restore_despite_code :
  let p := {| iss := None; launch := None; code := Some "auth-code-123" |} in
  let s := {| ls_token := Some (JObj [("access_token", JStr "tok-abc");
                                       ("patient", JStr "12724066")]);
              ls_iss := Some "https://fhir.example.org/r4";
              ls_tokenEndpoint := Some "https://auth.example.org/token";
              ls_currentLaunch := Some "https://fhir.example.org/r4:L-1" |} in
  code p <> None /\ ls_token s <> None /\ snd (onMount p (app_init s)) = Restored.
Proof. simpl. repeat split; discriminate. Qed.

(** C2 (as the code has it): after the new-launch check, a page load
    reuses the persisted session exactly when a (truthy) persisted token is
    present, whatever the [code] parameter says; an authorization [code] is
    exchanged (or the missing token endpoint reported) only when no such
    token is present. *)
Theorem session_restore_condition (p : url_params) (s : storage) :
  let a1 := takeover p (app_init s) in
  (snd (onMount p (app_init s)) = Restored <-> truthy_json (ls_token (store a1)) = true) /\
  (forall c, code p = Some c -> c <> "" -> truthy_json (ls_token (store a1)) = false ->
     snd (onMount p (app_init s)) =
       match ls_tokenEndpoint (store a1) with
       | Some e => if Js.truthy_str (Some e) then TokenRequest e c else NoTokenEndpoint
       | None => NoTokenEndpoint
       end).
Proof.
  intros a1. unfold onMount.
  apply mount_rest_store_token, takeover_token_none. reflexivity.
Qed.

End LaunchProps.

(* ================================================================== *)
(** * Properties of the observation feed *)

Module FeedProps.
Import Feed.

Section Sorting.
Variable date_time : string -> option Z.

Lemma insert_entry_perm (x : bundle_entry) (l : list bundle_entry) :
  Permutation (insert_entry date_time x l) (x :: l).
Proof.
  induction l as [|y l IH]; simpl; [auto|].
  destruct (sort_compare date_time x y <? 0); [auto|].
  rewrite IH. apply perm_swap.
Qed.

Lemma js_sort_perm_aux (l acc : list bundle_entry) :
  Permutation (fold_left (fun acc x => insert_entry date_time x acc) l acc) (l ++ acc).
Proof.
  revert acc; induction l as [|x l IH]; intros acc; simpl; [auto|].
  rewrite IH, insert_entry_perm. symmetry. apply Permutation_middle.
Qed.

Lemma js_sort_perm (l : list bundle_entry) : Permutation (js_sort date_time l) l.
Proof. unfold js_sort. rewrite js_sort_perm_aux, app_nil_r. reflexivity. Qed.

Lemma js_sort_nil (l : list bundle_entry) : js_sort date_time l = [] -> l = [].
Proof.
  intros H. pose proof (Permutation_length (js_sort_perm l)) as E.
  rewrite H in E. destruct l; [reflexivity|discriminate].
Qed.

Lemma sort_compare_dated (x y : bundle_entry) tx ty :
  entry_time date_time x = Some tx -> entry_time date_time y = Some ty ->
  sort_compare date_time x y = ty - tx.
Proof. intros Hx Hy. unfold sort_compare. now rewrite Hx, Hy. Qed.

Lemma insert_entry_hd (x y : bundle_entry) (l : list bundle_entry) :
  HdRel (not_older date_time) y l -> (not_older date_time) y x -> HdRel (not_older date_time) y (insert_entry date_time x l).
Proof.
  intros Hl Hyx. destruct l as [|z l]; simpl; [auto|].
  destruct (sort_compare date_time x z <? 0); constructor; [auto|].
  now inversion Hl.
Qed.

Lemma insert_entry_sorted (x : bundle_entry) (l : list bundle_entry) :
  (dated date_time) x -> Forall (dated date_time) l -> Sorted (not_older date_time) l ->
  Sorted (not_older date_time) (insert_entry date_time x l).
Proof.
  intros Hx. induction l as [|y l IH]; intros Hl Hs; simpl; [auto|].
  inversion Hl as [|? ? Hy Hl']; subst.
  destruct (entry_time date_time x) as [tx|] eqn:Ex; [|congruence].
  destruct (entry_time date_time y) as [ty|] eqn:Ey; [|congruence].
  rewrite (sort_compare_dated x y tx ty Ex Ey).
  destruct (ty - tx <? 0) eqn:C.
  - constructor; [exact Hs|]. constructor. exists tx, ty. repeat split; auto; lia.
  - inversion Hs; subst. constructor; [now apply IH|].
    apply insert_entry_hd; [assumption|]. exists ty, tx. repeat split; auto; lia.
Qed.

Lemma js_sort_sorted_aux (l acc : list bundle_entry) :
  Forall (dated date_time) l -> Forall (dated date_time) acc -> Sorted (not_older date_time) acc ->
  Sorted (not_older date_time) (fold_left (fun acc x => insert_entry date_time x acc) l acc).
Proof.
  revert acc; induction l as [|x l IH]; intros acc Hl Hacc Hs; simpl; [auto|].
  inversion Hl; subst. apply IH; auto.
  - eapply Permutation_Forall; [apply Permutation_sym, insert_entry_perm|].
    now constructor.
  - now apply insert_entry_sorted.
Qed.

Lemma js_sort_sorted (l : list bundle_entry) :
  Forall (dated date_time) l -> Sorted (not_older date_time) (js_sort date_time l).
Proof. intros H. apply js_sort_sorted_aux; auto. Qed.

End Sorting.

(** C3 (counterexample): an observation whose only value is an empty
    [valueString] is reported as "Not available", not as its (empty) raw
    string. *)
Lemma bpDisplay_empty_valueString :
  valueString Samples.empty_string_obs = Some "" /\
  bp_quantities Samples.empty_string_obs = None /\
  valueQuantity Samples.empty_string_obs = None /\
  bpDisplay Samples.empty_string_obs = "Not available" /\
  bpDisplay Samples.empty_string_obs <> "".
Proof. repeat split; [reflexivity .. | discriminate]. Qed.

(** C3 (as the code has it): when the first component coded 8480-6 and
    the first coded 8462-4 both carry a quantity, the value reads
    "systolic/diastolic unit" with the systolic unit, "mmHg" when it is
    absent or empty; otherwise a [valueQuantity] reads "value unit" with
    the unit defaulting to ""; otherwise a non-empty [valueString] reads as
    itself; otherwise (no [valueString], or an empty one) "Not available".
    The blood pressure 120/80 mmHg, the temperature 36.6 degC and an
    observation with no value format as "120/80 mmHg", "36.6 degC" and
    "Not available". *)
Theorem bpDisplay_policy :
  (forall o : observation,
     (forall sq dq, bp_quantities o = Some (sq, dq) ->
        bpDisplay o = quantity_value sq ++ "/" ++ quantity_value dq ++ " "
                      ++ Js.or_str (q_unit sq) "mmHg") /\
     (forall q, bp_quantities o = None -> valueQuantity o = Some q ->
        bpDisplay o = quantity_value q ++ " " ++ Js.or_str (q_unit q) "") /\
     (forall v, bp_quantities o = None -> valueQuantity o = None ->
        valueString o = Some v -> v <> "" -> bpDisplay o = v) /\
     (bp_quantities o = None -> valueQuantity o = None ->
        (valueString o = None \/ valueString o = Some "") ->
        bpDisplay o = "Not available")) /\
  bpDisplay Samples.bp_obs = "120/80 mmHg" /\
  bpDisplay Samples.temp_obs = "36.6 degC" /\
  bpDisplay Samples.empty_obs = "Not available".
Proof.
  split; [|repeat split; reflexivity].
  intros o.
  assert (Hbp : bp_quantities o = None ->
     bpDisplay o = match valueQuantity o with
                   | Some q => quantity_value q ++ " " ++ Js.or_str (q_unit q) ""
                   | None => match valueString o with
                             | Some v => if Js.truthy_str (Some v) then v else "Not available"
                             | None => "Not available" end end).
  { unfold bpDisplay, bp_quantities. intros H.
    destruct (component o) as [[|c cs]|]; [reflexivity| |reflexivity].
    remember (find (has_code "8480-6") (c :: cs)) as fs eqn:Es.
    remember (find (has_code "8462-4") (c :: cs)) as fd eqn:Ed.
    destruct fs as [s|], fd as [d|]; simpl in H |- *;
    try destruct (cp_valueQuantity s); try destruct (cp_valueQuantity d);
    simpl in H |- *; first [reflexivity | discriminate]. }
  split; [|split; [|split]].
  - intros sq dq H. unfold bp_quantities in H. unfold bpDisplay.
    destruct (component o) as [[|c cs]|]; try discriminate.
    remember (find (has_code "8480-6") (c :: cs)) as fs eqn:Es.
    remember (find (has_code "8462-4") (c :: cs)) as fd eqn:Ed.
    destruct fs as [s|], fd as [d|]; simpl in H |- *; try discriminate.
    destruct (cp_valueQuantity s), (cp_valueQuantity d); simpl in H |- *; try discriminate.
    injection H as -> ->. reflexivity.
  - intros q H Hq. rewrite (Hbp H), Hq. reflexivity.
  - intros v H Hq Hv Hne. rewrite (Hbp H), Hq, Hv, (LaunchProps.truthy_nonempty v Hne).
    reflexivity.
  - intros H Hq [Hv|Hv]; rewrite (Hbp H), Hq, Hv; reflexivity.
Qed.

Section Invariant.
Variable date_time : string -> option Z.
Variable patientId : string.

Lemma update_fields (st : feed) :
  let st' := updateDisplayedObservations date_time st in
  currentPage st' = currentPage st /\ itemsPerPage st' = itemsPerPage st /\
  vitalObservations st' = vitalObservations st /\ nextUrl st' = nextUrl st /\
  hasMoreOnServer st' = hasMoreOnServer st /\ window st' = window st.
Proof.
  unfold updateDisplayedObservations, window.
  destruct (allObservations st) eqn:Ea, (vitalObservations st) eqn:Ev; cbn;
    rewrite ?Ea, ?Ev; repeat split.
Qed.

Lemma update_inv (st : feed) :
  itemsPerPage st = 20%nat -> Inv (updateDisplayedObservations date_time st).
Proof.
  intros Hi. unfold Inv, updateDisplayedObservations.
  destruct (allObservations st) as [|e l] eqn:Ea, (vitalObservations st) as [b|] eqn:Ev;
    cbn; rewrite ?Ea, ?Ev; repeat split; auto; intros H; try discriminate.
  intros b' [= <-]. now apply js_sort_nil in H.
Qed.

Lemma reactive_inv (st : feed) :
  itemsPerPage st = 20%nat -> (vitalObservations st = None -> Inv st) ->
  Inv (reactive date_time st).
Proof.
  intros Hi H. unfold reactive. destruct (vitalObservations st) eqn:Ev.
  - now apply update_inv.
  - now apply H.
Qed.

Lemma fetchMore_fields (st : feed) (r : response) :
  let st' := fst (fetchMoreFromServer st r) in
  currentPage st' = currentPage st /\ itemsPerPage st' = itemsPerPage st /\
  allObservations st' = allObservations st /\
  vitalObservations st' = vitalObservations st.
Proof.
  unfold fetchMoreFromServer.
  destruct (negb _ || _); [cbn; auto|]. destruct r; cbn; auto.
Qed.

Lemma loadMore_unfold (st : feed) (r : response) :
  loadMore date_time st r =
  updateDisplayedObservations date_time
    (set_currentPage (S (currentPage (loadMore_merge date_time st r))) (loadMore_merge date_time st r)).
Proof.
  unfold loadMore, loadMore_merge.
  destruct (_ && _ && _); [|reflexivity].
  destruct (fetchMoreFromServer st r) as [st1 [b|]]; reflexivity.
Qed.

Lemma loadMore_merge_fields (st : feed) (r : response) :
  currentPage (loadMore_merge date_time st r) = currentPage st /\
  itemsPerPage (loadMore_merge date_time st r) = itemsPerPage st.
Proof.
  unfold loadMore_merge. destruct (_ && _ && _); [|auto].
  pose proof (fetchMore_fields st r) as (H1 & H2 & _).
  destruct (fetchMoreFromServer st r) as [st1 [b|]]; cbn in *; auto.
Qed.

Lemma inv_after_create (st : feed) (c s f : bool) (t : string) :
  Inv st -> Inv (set_creating c (set_temperatureValue t (set_showCreateForm f (set_createSuccess s st)))).
Proof. intros H. destruct st. exact H. Qed.

Lemma step_inv (st st' : feed) :
  Inv st -> step date_time patientId st st' -> Inv st'.
Proof.
  intros Hinv Hs. pose proof Hinv as (Hd & He & Hi).
  destruct Hs as [st now r|st r|st now_iso|st obs r now_ms|st now r|st|st v|st].
  - unfold mount, getVitals.
    destruct (getVitals_cache false st now) as [b|]; [|destruct r as [b|m]];
      cbn [fst snd].
    + apply update_inv. exact Hi.
    + apply update_inv. exact Hi.
    + destruct st; exact Hinv.
  - rewrite loadMore_unfold. apply update_inv. cbn.
    now rewrite (proj2 (loadMore_merge_fields st r)).
  - unfold createTemperatureObservation. destruct (_ || _); cbn [fst];
      destruct st; exact Hinv.
  - destruct r as [data|e]; cbn [create_resolved fst].
    + match goal with
      | |- Inv (reactive _ (set_creating _ (set_temperatureValue _ (set_showCreateForm _
                (set_createSuccess _ (updateDisplayedObservations _ ?Y)))))) =>
          assert (HY : Inv (updateDisplayedObservations date_time Y))
      end.
      { apply update_inv. cbn [vitalObservations set_allObservations].
        destruct (vitalObservations st); exact Hi. }
      apply reactive_inv; [exact (proj2 (proj2 HY))|].
      intros _. now apply inv_after_create.
    + destruct st; exact Hinv.
  - unfold reconcile, getVitals. cbn [getVitals_cache fst snd].
    destruct r as [b|m]; cbn [fst snd]; [|destruct st; exact Hinv].
    assert (HU : Inv (updateDisplayedObservations date_time
      (set_currentPage 0 (set_allObservations []
        (set_vitalObservations (Some b)
          (set_hasMoreOnServer (Js.truthy_str (next_link b))
            (set_nextUrl (next_link b) (set_lastFetchTime now st)))))))).
    { apply update_inv. exact Hi. }
    apply reactive_inv; [exact (proj2 (proj2 HU))|]. intros _. exact HU.
  - destruct st; exact Hinv.
  - destruct st; exact Hinv.
  - apply reactive_inv; auto.
Qed.

Lemma reachable_inv (st : feed) : reachable date_time patientId st -> Inv st.
Proof.
  induction 1 as [|st st' _ IH Hs].
  - unfold Inv; cbn; repeat split; discriminate.
  - eapply step_inv; eauto.
Qed.

End Invariant.

Section FeedTheorems.
Variable date_time : string -> option Z.
Variable patientId : string.

Lemma update_keeps_all (st : feed) :
  (allObservations st = [] -> forall b, vitalObservations st = Some b -> getVitalsEntries b = []) ->
  allObservations (updateDisplayedObservations date_time st) = allObservations st.
Proof.
  intros H. unfold updateDisplayedObservations.
  destruct (allObservations st) eqn:Ea, (vitalObservations st) as [bv|] eqn:Ev; cbn;
    rewrite ?Ea; auto.
  rewrite (H eq_refl bv eq_refl). reflexivity.
Qed.

Lemma loadMore_merge_fetch (st : feed) (b : bundle) :
  (List.length (allObservations st) < (currentPage st + 2) * itemsPerPage st)%nat ->
  hasMoreOnServer st = true -> isLoadingMore st = false ->
  Js.truthy_str (nextUrl st) = true ->
  allObservations (loadMore_merge date_time st (Ok b)) =
    js_sort date_time (allObservations st ++ js_sort date_time (getVitalsEntries b)) /\
  vitalObservations (loadMore_merge date_time st (Ok b)) = vitalObservations st.
Proof.
  intros Hl Hm Hload Hn. unfold loadMore_merge.
  apply Nat.ltb_lt in Hl. rewrite Hl, Hm, Hload. cbn [andb negb].
  unfold fetchMoreFromServer. rewrite Hn, Hload. cbn. auto.
Qed.

(** C4 (counterexample): a first bundle that lists an undated reading
    before a dated one.  [new Date("").getTime()] is [NaN], so the
    comparator yields [NaN] for the pair in both orders, which the sort
    takes as [+0] ("equal"); a stable sort, as ECMAScript requires, then
    keeps the undated reading first instead of moving it after the dated
    one. *)
Lemma undated_entry_stays_first :
  let st := set_vitalObservations (Some Samples.mixed_bundle) initial in
  allObservations (updateDisplayedObservations Samples.iso_date_time st)
    = [Samples.undated_entry; Samples.dated_entry] /\
  entry_time Samples.iso_date_time Samples.undated_entry = None /\
  entry_time Samples.iso_date_time Samples.dated_entry = Some 1709281800000 /\
  sort_compare Samples.iso_date_time Samples.undated_entry Samples.dated_entry = 0 /\
  sort_compare Samples.iso_date_time Samples.dated_entry Samples.undated_entry = 0.
Proof. vm_compute. repeat split. Qed.

(** The sort as the code has it: the collection built from the first bundle
    is a permutation of its entries, and the one merged by [loadMore] a
    permutation of the old collection and the new entries; each is sorted
    newest first (non-strictly: equal instants may sit side by side)
    whenever all of these entries have a parseable date.  An entry without
    one compares as equal to every entry, so the sort does not move it
    after dated entries. *)
Theorem sort_order_when_dated :
  (forall st b, allObservations st = [] -> vitalObservations st = Some b ->
     let l := allObservations (updateDisplayedObservations date_time st) in
     Permutation l (getVitalsEntries b) /\
     (Forall (dated date_time) (getVitalsEntries b) -> Sorted (not_older date_time) l)) /\
  (forall st b, reachable date_time patientId st ->
     (List.length (allObservations st) < (currentPage st + 2) * itemsPerPage st)%nat ->
     hasMoreOnServer st = true -> isLoadingMore st = false ->
     Js.truthy_str (nextUrl st) = true ->
     let l := allObservations (loadMore date_time st (Ok b)) in
     Permutation l (allObservations st ++ getVitalsEntries b) /\
     (Forall (dated date_time) (allObservations st ++ getVitalsEntries b) ->
        Sorted (not_older date_time) l)) /\
  (forall e e', entry_time date_time e = None ->
     sort_compare date_time e e' = 0 /\ sort_compare date_time e' e = 0).
Proof.
  split; [|split].
  - intros st b Ha Hv l.
    assert (Hl : l = js_sort date_time (getVitalsEntries b)).
    { unfold l, updateDisplayedObservations. rewrite Ha, Hv. reflexivity. }
    rewrite Hl. split; [apply js_sort_perm|apply js_sort_sorted].
  - intros st b Hr Hl Hm Hload Hn l.
    pose proof (reachable_inv date_time patientId st Hr) as (_ & He & _).
    destruct (loadMore_merge_fetch st b Hl Hm Hload Hn) as [Ha Hv].
    assert (Hl' : l = js_sort date_time (allObservations st ++ js_sort date_time (getVitalsEntries b))).
    { unfold l. rewrite loadMore_unfold, update_keeps_all.
      - cbn. exact Ha.
      - cbn. rewrite Ha, Hv. intros H0 b' Hb'.
        apply js_sort_nil, app_eq_nil in H0. destruct H0 as [H0 _].
        exact (He H0 b' Hb'). }
    assert (Hp : Permutation (allObservations st ++ js_sort date_time (getVitalsEntries b))
                             (allObservations st ++ getVitalsEntries b)).
    { apply Permutation_app_head, js_sort_perm. }
    rewrite Hl'. split.
    + rewrite js_sort_perm. exact Hp.
    + intros Hf. apply js_sort_sorted.
      eapply Permutation_Forall; [apply Permutation_sym, Hp|exact Hf].
  - intros e e' H. unfold sort_compare. rewrite H.
    destruct (entry_time date_time e'); auto.
Qed.

Lemma loadMore_window (st : feed) (r : response) :
  window (loadMore date_time st r) = (window st + itemsPerPage st)%nat.
Proof.
  rewrite loadMore_unfold.
  pose proof (update_fields date_time (set_currentPage (S (currentPage (loadMore_merge date_time st r)))
                                                     (loadMore_merge date_time st r))) as (_ & _ & _ & _ & _ & Hw).
  rewrite Hw. destruct (loadMore_merge_fields date_time st r) as [Hc Hi].
  unfold window in *. cbn. rewrite Hc, Hi. nia.
Qed.

(** C7: in every reachable state the displayed list is the first
    [windowSize = (currentPage + 1) * itemsPerPage] entries of the
    collection, so its length is [min windowSize allLoaded.length]; and
    every [loadMore] grows [windowSize] by exactly [itemsPerPage]. *)
Theorem window_invariant :
  (forall st, reachable date_time patientId st ->
     displayedObservations st = firstn (window st) (allObservations st) /\
     List.length (displayedObservations st)
       = Nat.min (window st) (List.length (allObservations st))) /\
  (forall st r, window (loadMore date_time st r) = (window st + itemsPerPage st)%nat).
Proof.
  split.
  - intros st Hr. destruct (reachable_inv date_time patientId st Hr) as (Hd & _ & _).
    split; [exact Hd|]. rewrite Hd. apply length_firstn.
  - exact loadMore_window.
Qed.

Lemma loadMore_idle (st : feed) (r : response) :
  reachable date_time patientId st -> hasMoreOnServer st = false ->
  (List.length (allObservations st) <= window st)%nat ->
  let st' := loadMore date_time st r in
  reachable date_time patientId st' /\
  displayedObservations st' = displayedObservations st /\
  allObservations st' = allObservations st /\
  nextUrl st' = nextUrl st /\ hasMoreOnServer st' = false /\
  (List.length (allObservations st') <= window st')%nat.
Proof.
  intros Hr Hm Hlen st'.
  destruct (reachable_inv date_time patientId st Hr) as (Hd & He & _).
  assert (Hmerge : loadMore_merge date_time st r = st).
  { unfold loadMore_merge. rewrite Hm, andb_false_r. reflexivity. }
  assert (Hst' : st' = updateDisplayedObservations date_time
                         (set_currentPage (S (currentPage st)) st)).
  { unfold st'. rewrite loadMore_unfold, Hmerge. reflexivity. }
  assert (Ha : allObservations st' = allObservations st).
  { rewrite Hst', update_keeps_all; [reflexivity|]. cbn. exact He. }
  pose proof (update_fields date_time (set_currentPage (S (currentPage st)) st))
    as (_ & _ & _ & Hn & Hh & Hw).
  cbn [hasMoreOnServer nextUrl set_currentPage] in Hn, Hh.
  rewrite <- Hst' in Hn, Hh, Hw.
  assert (Hww : window st' = (window st + itemsPerPage st)%nat).
  { unfold st'. apply loadMore_window. }
  assert (Hr' : reachable date_time patientId st').
  { eapply ReachStep; [exact Hr|]. apply StepLoadMore. }
  destruct (reachable_inv date_time patientId st' Hr') as (Hd' & _ & _).
  split; [exact Hr'|split; [|split; [exact Ha|split; [exact Hn|split; [congruence|]]]]].
  - rewrite Hd', Ha, Hww, Hd. rewrite !firstn_all2; auto. lia.
  - rewrite Ha, Hww. lia.
Qed.

(** C8: from a reachable state where the server has no further page and
    the window already covers the whole collection, any number of
    [loadMore] calls (whatever the network would answer) leave the
    displayed list, the collection and the server cursor as they were, and
    [hasMore()] stays false. *)
Theorem loadMore_saturated (st : feed) (rs : list response) :
  reachable date_time patientId st -> hasMoreOnServer st = false -> nextUrl st = None ->
  (List.length (allObservations st) <= window st)%nat ->
  hasMore st = false /\
  let st' := fold_left (loadMore date_time) rs st in
  displayedObservations st' = displayedObservations st /\
  allObservations st' = allObservations st /\
  nextUrl st' = None /\ hasMoreOnServer st' = false /\ hasMore st' = false.
Proof.
  assert (Hhm : forall s, hasMoreOnServer s = false ->
                 (List.length (allObservations s) <= window s)%nat -> hasMore s = false).
  { intros s Hm Hl. unfold hasMore. rewrite Hm, orb_false_r.
    apply Nat.ltb_ge. exact Hl. }
  revert st. induction rs as [|r rs IH]; intros st Hr Hm Hn Hl.
  - cbn. repeat split; auto.
  - split; [auto|]. cbn [fold_left].
    destruct (loadMore_idle st r Hr Hm Hl) as (Hr' & Hd' & Ha' & Hn' & Hm' & Hl').
    rewrite Hn in Hn'.
    destruct (IH _ Hr' Hm' Hn' Hl') as [_ (Hd2 & Ha2 & Hrest)].
    split; [congruence|]. split; [congruence|]. exact Hrest.
Qed.

Lemma update_keeps_nonempty (st : feed) :
  allObservations st <> [] ->
  allObservations (updateDisplayedObservations date_time st) = allObservations st.
Proof.
  intros H. apply update_keeps_all. intros H'. contradiction.
Qed.

Lemma reactive_fields (st : feed) :
  allObservations st <> [] ->
  allObservations (reactive date_time st) = allObservations st /\
  window (reactive date_time st) = window st.
Proof.
  intros H. unfold reactive. destruct (vitalObservations st); [|auto].
  split; [now apply update_keeps_nonempty|apply update_fields].
Qed.

Lemma update_idem (st : feed) :
  let st1 := updateDisplayedObservations date_time st in
  let st2 := updateDisplayedObservations date_time st1 in
  allObservations st2 = allObservations st1 /\
  displayedObservations st2 = displayedObservations st1 /\
  window st2 = window st1 /\ vitalObservations st2 = vitalObservations st1 /\
  nextUrl st2 = nextUrl st1.
Proof.
  destruct st as [v lo er sc cr ce cs cp ip dsp al il hm nu tv lf]; cbn.
  unfold updateDisplayedObservations; cbn.
  destruct al as [|x l], v as [bv|]; cbn; auto.
  destruct (js_sort date_time (getVitalsEntries bv)) eqn:Es; cbn; rewrite ?Es; auto.
Qed.

Lemma create_ok_fields (st : feed) (obs : observation) (data : option (option string)) (now_ms : Z) :
  let st' := fst (create_resolved date_time st obs (PostOk data) now_ms) in
  allObservations st' = optimistic_entry obs data now_ms :: allObservations st /\
  window st' = window st.
Proof.
  cbn [create_resolved fst].
  match goal with |- context [updateDisplayedObservations _ ?Y] => set (Y0 := Y) end.
  assert (HY : allObservations Y0 = optimistic_entry obs data now_ms :: allObservations st
               /\ window Y0 = window st).
  { unfold Y0. cbn [vitalObservations set_allObservations].
    destruct (vitalObservations st); split; reflexivity. }
  destruct HY as [HYa HYw].
  match goal with |- context [reactive _ ?S] => set (S0 := S) end.
  assert (HSa : allObservations S0 = allObservations (updateDisplayedObservations date_time Y0))
    by reflexivity.
  assert (HSw : window S0 = window (updateDisplayedObservations date_time Y0)) by reflexivity.
  rewrite update_keeps_nonempty in HSa by (rewrite HYa; discriminate).
  destruct (reactive_fields S0) as [Ha Hw]; [rewrite HSa, HYa; discriminate|].
  rewrite Ha, Hw, HSa, HSw, HYa.
  split; [reflexivity|].
  rewrite (proj2 (proj2 (proj2 (proj2 (proj2 (update_fields date_time _)))))). exact HYw.
Qed.

(** C5: in every reachable state, once the POST of the observation built from
    the input [tv] succeeds (whatever the body holds), the entry carrying the
    server's id, or else ["temp-" ++ Date.now()], is prepended to
    [allObservations] and heads [displayedObservations] right away; its code
    text is "Temperature Oral" and it displays as "<N> degC", with <N> the
    number [parseFloat tv] prints as. *)
Theorem optimistic_create (st : feed) (tv now_iso : string)
  (data : option (option string)) (now_ms : Z) :
  reachable date_time patientId st ->
  let obs := temperatureObservation patientId tv now_iso in
  let st' := fst (create_resolved date_time st obs (PostOk data) now_ms) in
  let e := optimistic_entry obs data now_ms in
  allObservations st' = e :: allObservations st /\
  hd_error (displayedObservations st') = Some e /\
  id obs = None /\
  resource e = Some (with_id (Js.or_str (match data with Some i => i | None => None end)
                                        ("temp-" ++ Js.to_string (Js.Fin now_ms 0))) obs) /\
  option_map cc_text (match resource e with Some r => code r | None => None end)
    = Some (Some "Temperature Oral") /\
  option_map bpDisplay (resource e) = Some (Js.to_string (Js.parseFloat tv) ++ " degC").
Proof.
  intros Hr. cbv zeta.
  destruct (create_ok_fields st (temperatureObservation patientId tv now_iso) data now_ms)
    as [Ha _].
  assert (Hr' : reachable date_time patientId
                  (fst (create_resolved date_time st (temperatureObservation patientId tv now_iso)
                                        (PostOk data) now_ms))).
  { eapply ReachStep; [exact Hr|]. apply StepCreateResolved. }
  split; [exact Ha|]. split; [|repeat split].
  revert Ha Hr'.
  generalize (fst (create_resolved date_time st (temperatureObservation patientId tv now_iso)
                                   (PostOk data) now_ms)) as st'.
  intros st' Ha Hr'.
  destruct (reachable_inv date_time patientId st' Hr') as (Hd & _ & Hipp).
  rewrite Hd, Ha. unfold window. rewrite Hipp.
  destruct (currentPage st'); reflexivity.
Qed.

(** C6: a successful create schedules the reconciliation after a fixed
    1000 ms; its [getVitals(true)] skips the cache whatever the state; and a
    successful re-fetch of bundle [b] replaces [allObservations] by the
    sorted entries of [b] only (the optimistic entry is gone unless the
    server returns it), resets [currentPage] to 0, so that the window is one
    page, and displays the first page of them. *)
Theorem reconcile_replaces (st : feed) (obs : observation)
  (data : option (option string)) (now_ms now : Z) (b : bundle) :
  snd (create_resolved date_time st obs (PostOk data) now_ms) = Some 1000%nat /\
  getVitals_cache true st now = None /\
  let st' := reconcile date_time st now (Ok b) in
  allObservations st' = js_sort date_time (getVitalsEntries b) /\
  vitalObservations st' = Some b /\
  currentPage st' = 0%nat /\
  window st' = itemsPerPage st /\
  displayedObservations st' = firstn (itemsPerPage st) (js_sort date_time (getVitalsEntries b)) /\
  nextUrl st' = next_link b.
Proof.
  split; [reflexivity|]. split; [reflexivity|].
  unfold reconcile, getVitals. cbn [getVitals_cache].
  match goal with |- context [updateDisplayedObservations _ ?Z] => set (Z0 := Z) end.
  assert (HZ : vitalObservations (updateDisplayedObservations date_time Z0) = Some b)
    by (rewrite (proj1 (proj2 (proj2 (update_fields date_time Z0)))); reflexivity).
  unfold reactive. rewrite HZ.
  destruct (update_idem Z0) as (Ea & Ed & Ew & Ev & En).
  destruct (update_fields date_time (updateDisplayedObservations date_time Z0))
    as (Ec & Ei & _ & _ & _ & _).
  destruct (update_fields date_time Z0) as (Ec' & Ei' & Ev' & En' & _).
  rewrite ?Ea, ?Ed, ?Ew, ?Ev, ?En, ?Ec, ?Ec', ?Ev', ?En'.
  unfold updateDisplayedObservations, window; cbn.
  rewrite Nat.add_0_r. repeat split.
Qed.

(** C9: an input that is empty or whose [parseFloat] is NaN only sets
    [createError] to the validation message and sends no POST; a POST that
    rejects with [e] adds no entry, leaves [allObservations],
    [displayedObservations], the window, the bundle, the cursor and the open
    form as they were, sets [createError] to the message built from [e],
    clears [creating] and schedules no reconciliation. *)
Theorem create_failure_paths :
  (forall st now_iso,
     temperatureValue st = "" \/ Js.isNaN (Js.parseFloat (temperatureValue st)) = true ->
     createTemperatureObservation patientId st now_iso
     = (set_createError (Some validation_message) st, None)) /\
  (forall st obs e now_ms,
     let '(st', timer) := create_resolved date_time st obs (PostErr e) now_ms in
     timer = None /\
     st' = set_creating false (set_createError (Some (create_error_message e)) st) /\
     allObservations st' = allObservations st /\
     displayedObservations st' = displayedObservations st /\
     currentPage st' = currentPage st /\ itemsPerPage st' = itemsPerPage st /\
     window st' = window st /\
     vitalObservations st' = vitalObservations st /\ nextUrl st' = nextUrl st /\
     showCreateForm st' = showCreateForm st /\
     createError st' = Some (create_error_message e) /\ creating st' = false).
Proof.
  split.
  - intros st now_iso H. unfold createTemperatureObservation.
    destruct H as [H|H]; rewrite H; cbn [Js.truthy_str].
    + reflexivity.
    + rewrite orb_true_r. reflexivity.
  - intros st obs e now_ms. cbn. repeat split.
Qed.


End FeedTheorems.

End FeedProps.

(* ------------------------------------------------------------------ *)
(** ** The query strings the launch controller builds *)

Module UrlProps.
Import Url.

Lemma decode_encode_byte (c : ascii) (u : list ascii) :
  percent_decode (plus_to_space (encode_byte c ++ u)) = c :: percent_decode (plus_to_space u).
Proof.
  destruct c as [[] [] [] [] [] [] [] []]; reflexivity.
Qed.

Lemma decode_encode_app (l u : list ascii) :
  percent_decode (plus_to_space (flat_map encode_byte l ++ u))
  = (l ++ percent_decode (plus_to_space u))%list.
Proof.
  induction l as [|c l IH]; [reflexivity|].
  cbn [flat_map]. rewrite <- app_assoc, decode_encode_byte, IH. reflexivity.
Qed.

Lemma form_decode_encode (s : string) : form_decode (form_encode s) = s.
Proof.
  unfold form_decode, form_encode.
  rewrite <- (app_nil_r (flat_map encode_byte (list_ascii_of_string s))).
  rewrite decode_encode_app. cbn. rewrite app_nil_r.
  apply string_of_list_ascii_of_string.
Qed.

(** No byte of an encoded string is a separator. *)
Definition no_sep (l : list ascii) : Prop :=
  Forall (fun x => Ascii.eqb x "&" = false /\ Ascii.eqb x "=" = false) l.

Lemma encode_byte_no_sep (c : ascii) : no_sep (encode_byte c).
Proof.
  unfold no_sep.
  destruct c as [[] [] [] [] [] [] [] []]; repeat constructor.
Qed.

Lemma form_encode_no_sep (s : string) : no_sep (form_encode s).
Proof.
  unfold form_encode, no_sep. induction (list_ascii_of_string s) as [|c l IH]; cbn; [constructor|].
  apply Forall_app. split; [apply encode_byte_no_sep|exact IH].
Qed.

Lemma split_amp_piece (p rest : list ascii) :
  no_sep p -> split_amp (p ++ "&"%char :: rest) = p :: split_amp rest.
Proof.
  induction p as [|x p IH]; intros H; [reflexivity|].
  inversion H as [|? ? [Ha _] Hp]; subst. cbn. rewrite (IH Hp), Ha. reflexivity.
Qed.

Lemma split_amp_last (p : list ascii) : no_sep p -> split_amp p = [p].
Proof.
  induction p as [|x p IH]; intros H; [reflexivity|].
  inversion H as [|? ? [Ha _] Hp]; subst. cbn. rewrite (IH Hp), Ha. reflexivity.
Qed.

Lemma break_eq_pair (n v : list ascii) :
  no_sep n -> break_eq (n ++ "="%char :: v) = (n, v).
Proof.
  induction n as [|x n IH]; intros H; [reflexivity|].
  inversion H as [|? ? [_ He] Hn]; subst. cbn. rewrite He, (IH Hn). reflexivity.
Qed.

Definition pair_bytes (nv : string * string) : list ascii :=
  let '(n, v) := nv in (form_encode n ++ "="%char :: form_encode v)%list.

Lemma pair_bytes_no_amp (nv : string * string) :
  Forall (fun x => Ascii.eqb x "&" = false) (pair_bytes nv).
Proof.
  destruct nv as [n v]. cbn. apply Forall_app. split.
  - eapply Forall_impl; [|apply form_encode_no_sep]. cbn. tauto.
  - constructor; [reflexivity|]. eapply Forall_impl; [|apply form_encode_no_sep]. cbn. tauto.
Qed.

Lemma split_amp_piece' (p rest : list ascii) :
  Forall (fun x => Ascii.eqb x "&" = false) p -> split_amp (p ++ "&"%char :: rest) = p :: split_amp rest.
Proof.
  induction p as [|x p IH]; intros H; [reflexivity|].
  inversion H as [|? ? Ha Hp]; subst. cbn. rewrite (IH Hp), Ha. reflexivity.
Qed.

Lemma split_amp_last' (p : list ascii) :
  Forall (fun x => Ascii.eqb x "&" = false) p -> split_amp p = [p].
Proof.
  induction p as [|x p IH]; intros H; [reflexivity|].
  inversion H as [|? ? Ha Hp]; subst. cbn. rewrite (IH Hp), Ha. reflexivity.
Qed.

Lemma split_join_pairs (l : list (string * string)) :
  l <> [] -> split_amp (join_amp (map pair_bytes l)) = map pair_bytes l.
Proof.
  induction l as [|nv l IH]; intros Hne; [congruence|].
  destruct l as [|nv' l].
  - cbn [map join_amp]. apply split_amp_last', pair_bytes_no_amp.
  - change (join_amp (map pair_bytes (nv :: nv' :: l)))
      with (pair_bytes nv ++ "&"%char :: join_amp (map pair_bytes (nv' :: l)))%list.
    rewrite split_amp_piece' by apply pair_bytes_no_amp.
    rewrite IH by discriminate. reflexivity.
Qed.

Lemma parse_piece (nv : string * string) :
  (match pair_bytes nv with
   | [] => []
   | _ => let '(n, v) := break_eq (pair_bytes nv) in [(form_decode n, form_decode v)]
   end) = [nv].
Proof.
  destruct nv as [n v].
  assert (Hb : break_eq (pair_bytes (n, v)) = (form_encode n, form_encode v))
    by (apply break_eq_pair, form_encode_no_sep).
  assert (Hne : exists x t, pair_bytes (n, v) = x :: t).
  { cbn. destruct (form_encode n) as [|x t]; cbn; eauto. }
  destruct Hne as (x & t & Ht).
  rewrite Hb, Ht, !form_decode_encode. reflexivity.
Qed.

(** The parser reads back every list of pairs the serializer writes. *)
Lemma form_parse_serialize (l : list (string * string)) : form_parse (form_serialize l) = l.
Proof.
  unfold form_parse, form_serialize.
  rewrite list_ascii_of_string_of_list_ascii.
  change (fun '(n, v) => (form_encode n ++ "="%char :: form_encode v)%list) with pair_bytes.
  destruct l as [|nv l]; [reflexivity|].
  rewrite split_join_pairs by discriminate.
  induction (nv :: l) as [|x t IH]; [reflexivity|].
  cbn [flat_map map]. rewrite parse_piece, IH. reflexivity.
Qed.

Lemma getAll_filter_other (k k' : string) (l : list (string * string)) :
  params_getAll k (filter (fun '(n', _) => negb (String.eqb n' k')) l)
  = if String.eqb k k' then [] else params_getAll k l.
Proof.
  unfold params_getAll.
  induction l as [|[n x] l IH]; cbn; [destruct (String.eqb k k'); reflexivity|].
  destruct (String.eqb_spec n k') as [E1|E1]; cbn;
    destruct (String.eqb_spec n k) as [E2|E2]; cbn;
    destruct (String.eqb_spec k k') as [E3|E3]; subst; cbn in *;
    try rewrite IH; try reflexivity; congruence.
Qed.

Lemma getAll_set_same (k v : string) (l : list (string * string)) :
  params_getAll k (params_set k v l) = [v].
Proof.
  unfold params_set.
  destruct (existsb (fun '(n, _) => String.eqb n k) l) eqn:Ex.
  - induction l as [|[n x] l IH]; [discriminate|].
    cbn in Ex |- *. destruct (String.eqb n k) eqn:E.
    + cbn. unfold params_getAll in *. cbn. rewrite E. cbn. f_equal.
      pose proof (getAll_filter_other k k l) as H. unfold params_getAll in H.
      rewrite String.eqb_refl in H. exact H.
    + unfold params_getAll in *. cbn. rewrite E. apply IH. exact Ex.
  - unfold params_getAll. rewrite filter_app. cbn. rewrite String.eqb_refl.
    assert (H : filter (fun '(n, _) => String.eqb n k) l = []).
    { induction l as [|[n x] l IH]; [reflexivity|].
      cbn in Ex |- *. destruct (String.eqb n k); [discriminate|]. apply IH, Ex. }
    rewrite H. reflexivity.
Qed.

Lemma getAll_set_other (k k' v : string) (l : list (string * string)) :
  k' <> k -> params_getAll k' (params_set k v l) = params_getAll k' l.
Proof.
  intros Hk. unfold params_set.
  destruct (existsb (fun '(n, _) => String.eqb n k) l) eqn:Ex.
  - clear Ex. induction l as [|[n x] l IH]; [reflexivity|].
    cbn. destruct (String.eqb n k) eqn:E.
    + apply String.eqb_eq in E; subst n.
      unfold params_getAll. cbn.
      assert (Hn : String.eqb k k' = false) by (apply String.eqb_neq; congruence).
      rewrite Hn.
      pose proof (getAll_filter_other k' k l) as H. unfold params_getAll in H.
      apply String.eqb_neq in Hk. rewrite Hk in H. exact H.
    + unfold params_getAll in *. cbn. destruct (String.eqb n k'); cbn; rewrite IH; reflexivity.
  - unfold params_getAll. rewrite filter_app. cbn.
    assert (Hn : String.eqb k k' = false) by (apply String.eqb_neq; congruence).
    rewrite Hn, app_nil_r. reflexivity.
Qed.

Lemma params_set_nonempty (k v : string) (l : list (string * string)) :
  params_set k v l <> [].
Proof.
  unfold params_set. destruct (existsb _ l) eqn:Ex.
  - destruct l as [|[n x] l]; [discriminate|]. cbn. destruct (String.eqb n k); discriminate.
  - destruct l; discriminate.
Qed.

End UrlProps.

(* ------------------------------------------------------------------ *)
(** ** The launch controller's requests and the three-load launch *)

Module LaunchExtra.
Import App.

Ltac truthy_rw :=
  repeat match goal with
  | H : ?x <> "" |- context [Js.truthy_str (Some ?x)] =>
      rewrite (LaunchProps.truthy_nonempty x H)
  | H : ?x <> "" |- context [String.eqb ?x ""] =>
      rewrite (proj2 (String.eqb_neq x "") H)
  end.

Ltac getall_solve :=
  repeat first [ rewrite UrlProps.getAll_set_same
               | rewrite UrlProps.getAll_set_other by discriminate ];
  reflexivity.

(** X: the authorization URL. *)
Theorem constructAuthUrl_query (url : Url.url) (launch iss : string) :
  let q := Url.url_query (auth_url url launch iss) in
  constructAuthUrl url launch iss
    = Url.url_prefix url ++ "?" ++ Url.form_serialize q ++ Url.url_fragment url /\
  Url.form_parse (Url.form_serialize q) = q /\
  Url.params_getAll "client_id" q = [client_id] /\
  Url.params_getAll "redirect_uri" q = [redirectUrl] /\
  Url.params_getAll "scope" q = [auth_scope] /\
  Url.params_getAll "response_type" q = ["code"] /\
  Url.params_getAll "aud" q = [iss] /\
  Url.params_getAll "launch" q = [launch] /\
  (forall k, ~ In k ["client_id"; "redirect_uri"; "scope"; "response_type"; "aud"; "launch"] ->
     Url.params_getAll k q = Url.params_getAll k (Url.url_query url)).
Proof.
  cbv zeta.
  split.
  { unfold constructAuthUrl, Url.href.
    assert (Hq : Url.url_query (auth_url url launch iss) <> []) by apply UrlProps.params_set_nonempty.
    destruct (Url.url_query (auth_url url launch iss)) eqn:E; [congruence|].
    reflexivity. }
  split; [apply UrlProps.form_parse_serialize|].
  unfold auth_url, Url.url_set; cbn [Url.url_query].
  split; [getall_solve|]. split; [getall_solve|]. split; [getall_solve|].
  split; [getall_solve|]. split; [getall_solve|]. split; [getall_solve|].
  intros k Hk. cbn in Hk.
  rewrite !UrlProps.getAll_set_other by (intros ->; tauto).
  reflexivity.
Qed.


(** X: the token request. *)
Theorem makeTokenRequest_form (a : app) (code : string) :
  (makeTokenRequest a code = None <-> Js.truthy_str (ls_tokenEndpoint (store a)) = false) /\
  (forall e body, makeTokenRequest a code = Some (e, body) ->
     ls_tokenEndpoint (store a) = Some e /\
     Url.form_parse body = token_form code /\
     forall url launch iss,
       Url.params_getAll "redirect_uri" (Url.form_parse body)
         = Url.params_getAll "redirect_uri" (Url.url_query (auth_url url launch iss)) /\
       Url.params_getAll "client_id" (Url.form_parse body)
         = Url.params_getAll "client_id" (Url.url_query (auth_url url launch iss))).
Proof.
  unfold makeTokenRequest.
  destruct (ls_tokenEndpoint (store a)) as [e|] eqn:E; cbn [Js.truthy_str negb].
  - destruct (String.eqb e "") eqn:Ee; cbn [negb].
    + split; [tauto|]. discriminate.
    + split; [split; discriminate|].
      intros e' body H. injection H as <- <-.
      split; [reflexivity|].
      rewrite UrlProps.form_parse_serialize. split; [reflexivity|].
      intros url launch iss. unfold auth_url, Url.url_set; cbn [Url.url_query].
      split; [symmetry; getall_solve|symmetry; getall_solve].
  - split; [tauto|]. discriminate.
Qed.

Lemma discovery_load (a : app) (i l : string) :
  i <> "" -> l <> "" -> token a = None -> truthy_json (ls_token (store a)) = false ->
  let r := mount_rest {| iss := Some i; launch := Some l; code := None |} a in
  snd r = Discovery i l /\ ls_iss (store (fst r)) = Some i /\
  ls_currentLaunch (store (fst r)) = ls_currentLaunch (store a) /\
  ls_token (store (fst r)) = ls_token (store a).
Proof.
  intros Hi Hl Htk Ht. destruct a as [bu tk [t i1 te cl]]; cbn in Htk, Ht; subst tk.
  unfold mount_rest; cbn [store ls_token ls_iss token baseUrl code iss launch].
  truthy_rw. cbn [andb].
  destruct t as [t|]; [cbn [token]; rewrite Ht|];
    (destruct i1 as [i1|]; [destruct (Js.truthy_str (Some i1))|]);
    cbn; repeat split.
Qed.

Lemma first_load (s : storage) (i l : string) :
  i <> "" -> l <> "" ->
  (truthy_json (ls_token s) = false \/
   exists k, ls_currentLaunch s = Some k /\ k <> "" /\ k <> launch_key i l) ->
  let r := onMount {| iss := Some i; launch := Some l; code := None |} (app_init s) in
  snd r = Discovery i l /\ ls_iss (store (fst r)) = Some i /\
  ls_currentLaunch (store (fst r)) = Some (launch_key i l) /\
  truthy_json (ls_token (store (fst r))) = false.
Proof.
  intros Hi Hl Hs. unfold onMount.
  assert (Ha : token (takeover {| iss := Some i; launch := Some l; code := None |} (app_init s)) = None
               /\ truthy_json (ls_token (store (takeover {| iss := Some i; launch := Some l; code := None |}
                                                          (app_init s)))) = false
               /\ ls_currentLaunch (store (takeover {| iss := Some i; launch := Some l; code := None |}
                                                    (app_init s))) = Some (launch_key i l)).
  { unfold takeover. cbn [iss launch]. truthy_rw. cbn [andb].
    destruct s as [t0 i0 te0 cl0]; cbn [app_init store ls_currentLaunch ls_token] in *.
    destruct cl0 as [k|].
    - destruct (Js.truthy_str (Some k) && negb (String.eqb k (launch_key i l))) eqn:Ek;
        cbn; [repeat split|].
      destruct Hs as [Ht|(k' & Hk & Hk1 & Hk2)]; [repeat split; exact Ht|].
      injection Hk as <-. rewrite (LaunchProps.truthy_nonempty k Hk1) in Ek.
      apply String.eqb_neq in Hk2. rewrite Hk2 in Ek. discriminate.
    - destruct Hs as [Ht|(k' & Hk & _)]; [|discriminate]. cbn. repeat split. exact Ht. }
  destruct Ha as (Htk & Ht & Hcl).
  destruct (discovery_load _ i l Hi Hl Htk Ht) as (Ho & Hiss & Hcl' & Htok).
  cbv zeta. rewrite Ho, Hiss, Hcl', Htok, Hcl. repeat split. exact Ht.
Qed.

Lemma code_load (s : storage) (c te : string) :
  c <> "" -> te <> "" -> ls_tokenEndpoint s = Some te -> truthy_json (ls_token s) = false ->
  snd (onMount {| iss := None; launch := None; code := Some c |} (app_init s)) = TokenRequest te c /\
  store (fst (onMount {| iss := None; launch := None; code := Some c |} (app_init s))) = s.
Proof.
  intros Hc Hte He Ht. destruct s as [t i1 te1 cl]; cbn in He, Ht; subst te1.
  unfold onMount, takeover, mount_rest; cbn [store ls_token ls_iss ls_tokenEndpoint token
                                             baseUrl code iss launch app_init].
  truthy_rw.
  destruct t as [t|]; [cbn [token]; rewrite Ht|];
    (destruct i1 as [i1|]; [destruct (Js.truthy_str (Some i1))|]);
    cbn; rewrite ?Ht; truthy_rw; cbn; split; reflexivity.
Qed.

Lemma restore_load (s : storage) (i : string) (data : jval) :
  i <> "" -> ls_iss s = Some i -> ls_token s = Some data -> truthy_json (Some data) = true ->
  onMount {| iss := None; launch := None; code := None |} (app_init s)
  = ({| baseUrl := Some i; token := Some data; store := s |}, Restored).
Proof.
  intros Hi His Ht Hd. destruct s as [t i1 te cl]; cbn in His, Ht; subst.
  unfold onMount, takeover, mount_rest; cbn [store ls_token ls_iss token baseUrl iss launch app_init].
  truthy_rw. cbn [token]. rewrite Hd. reflexivity.
Qed.

(** X: the three loads of a SMART launch. *)
Theorem smart_launch_sequence (s : storage) (i l c te : string) (data : jval) :
  i <> "" -> l <> "" -> c <> "" -> te <> "" -> truthy_json (Some data) = true ->
  (truthy_json (ls_token s) = false \/
   exists k, ls_currentLaunch s = Some k /\ k <> "" /\ k <> launch_key i l) ->
  let load1 := onMount {| iss := Some i; launch := Some l; code := None |} (app_init s) in
  let s1 := store (discovery_document_received (fst load1) (Some (JStr te))) in
  let load2 := onMount {| iss := None; launch := None; code := Some c |} (app_init s1) in
  let s2 := store (token_received (fst load2) data) in
  snd load1 = Discovery i l /\
  snd load2 = TokenRequest te c /\
  makeTokenRequest (fst load2) c = Some (te, Url.form_serialize (token_form c)) /\
  s2 = {| ls_token := Some data; ls_iss := Some i; ls_tokenEndpoint := Some te;
          ls_currentLaunch := Some (launch_key i l) |} /\
  onMount {| iss := None; launch := None; code := None |} (app_init s2)
    = ({| baseUrl := Some i; token := Some data; store := s2 |}, Restored).
Proof.
  intros Hi Hl Hc Hte Hd Hs. cbv zeta.
  destruct (first_load s i l Hi Hl Hs) as (H1 & Hiss & Hcl & Ht).
  set (a1 := fst (onMount {| iss := Some i; launch := Some l; code := None |} (app_init s))) in *.
  set (s1 := store (discovery_document_received a1 (Some (JStr te)))).
  assert (Hs1 : s1 = {| ls_token := ls_token (store a1); ls_iss := Some i;
                        ls_tokenEndpoint := Some te; ls_currentLaunch := Some (launch_key i l) |}).
  { unfold s1, discovery_document_received, discovery_received, set_ls_tokenEndpoint.
    cbn [store js_string]. rewrite Hiss, Hcl. reflexivity. }
  destruct (code_load s1 c te Hc Hte ltac:(rewrite Hs1; reflexivity)
                      ltac:(rewrite Hs1; exact Ht)) as (H2 & Hst2).
  split; [exact H1|]. split; [exact H2|].
  assert (Hmk : makeTokenRequest
                  (fst (onMount {| iss := None; launch := None; code := Some c |} (app_init s1))) c
                = Some (te, Url.form_serialize (token_form c))).
  { unfold makeTokenRequest. rewrite Hst2, Hs1. cbn [store ls_tokenEndpoint].
    rewrite (LaunchProps.truthy_nonempty te Hte). reflexivity. }
  assert (Hs2 : store (token_received
                  (fst (onMount {| iss := None; launch := None; code := Some c |} (app_init s1))) data)
                = {| ls_token := Some data; ls_iss := Some i; ls_tokenEndpoint := Some te;
                     ls_currentLaunch := Some (launch_key i l) |}).
  { unfold token_received. cbn [store]. rewrite Hst2, Hs1. reflexivity. }
  split; [exact Hmk|]. split; [exact Hs2|].
  rewrite Hs2. apply restore_load; auto.
Qed.

(** X: a discovery document without [token_endpoint]. *)
Theorem undefined_token_endpoint (a : app) (te : option jval) (c : string) :
  te = None \/ te = Some JNull -> c <> "" -> truthy_json (ls_token (store a)) = false ->
  let s := store (discovery_document_received a te) in
  let stored := match te with None => "undefined" | Some _ => "null" end in
  let load := onMount {| iss := None; launch := None; code := Some c |} (app_init s) in
  ls_tokenEndpoint s = Some stored /\
  snd load = TokenRequest stored c /\
  makeTokenRequest (fst load) c = Some (stored, Url.form_serialize (token_form c)).
Proof.
  intros Hte Hc Ht. cbv zeta.
  assert (Hs : ls_tokenEndpoint (store (discovery_document_received a te))
               = Some (match te with None => "undefined" | Some _ => "null" end)).
  { destruct Hte as [->| ->]; reflexivity. }
  assert (Hne : match te with None => "undefined" | Some _ => "null" end <> "")
    by (destruct te; discriminate).
  assert (Ht' : truthy_json (ls_token (store (discovery_document_received a te))) = false)
    by exact Ht.
  destruct (code_load _ c _ Hc Hne Hs Ht') as (Ho & Hst).
  split; [exact Hs|]. split; [exact Ho|].
  unfold makeTokenRequest. rewrite Hst, Hs.
  rewrite (LaunchProps.truthy_nonempty _ Hne). reflexivity.
Qed.

Lemma takeover_idle (p : url_params) (a : app) :
  (Js.truthy_str (iss p) && Js.truthy_str (launch p)) = false -> takeover p a = a.
Proof.
  unfold takeover. destruct (iss p) as [i|], (launch p) as [l|]; cbn; auto.
  intros ->. reflexivity.
Qed.

(** X: the "ISS or Launch parameter is missing." error. *)
Theorem onMount_missing_params (p : url_params) (s : storage) :
  (snd (onMount p (app_init s)) = MissingParams <->
   truthy_json (ls_token s) = false /\ Js.truthy_str (code p) = false /\
   (Js.truthy_str (iss p) && Js.truthy_str (launch p)) = false) /\
  (snd (onMount p (app_init s)) = MissingParams -> store (fst (onMount p (app_init s))) = s).
Proof.
  destruct (Js.truthy_str (iss p) && Js.truthy_str (launch p)) eqn:Hb.
  - assert (Hn : snd (onMount p (app_init s)) <> MissingParams).
    { unfold onMount, mount_rest.
      destruct p as [[i|] [l|] c]; cbn [iss launch] in *;
        change (Js.truthy_str None) with false in Hb;
        rewrite ?andb_false_r in Hb; try discriminate.
      cbn [code iss launch]. rewrite Hb.
      repeat match goal with
      | |- context [match ?x with Some _ => _ | None => _ end] => destruct x
      | |- context [if ?b then _ else _] => destruct b
      end; cbn; discriminate. }
    split; [split; [intros H; contradiction|intros (_ & _ & H); discriminate]
           |intros H; contradiction].
  - unfold onMount. rewrite (takeover_idle p _ Hb). unfold mount_rest, app_init.
    destruct p as [ip lp cp], s as [t i1 te cl].
    destruct t as [t|], i1 as [v|], te as [e|], ip as [i|], lp as [l|], cp as [c|];
      cbn in *; try rewrite Hb;
      repeat (cbn; match goal with
      | |- context [if ?b then _ else _] => destruct b eqn:?
      end); cbn in *; intuition congruence.
Qed.

End LaunchExtra.

(* ------------------------------------------------------------------ *)
(** ** PatientBanner: the patient cache *)

Module BannerProps.
Import App Banner.

Lemma obj_get_set_same (k : string) (e : cache_entry) (l : list (string * cache_entry)) :
  obj_get k (obj_set k e l) = Some e.
Proof.
  induction l as [|[n x] t IH]; cbn.
  - rewrite String.eqb_refl. reflexivity.
  - destruct (String.eqb n k) eqn:E; cbn; rewrite E; [reflexivity|exact IH].
Qed.

Lemma obj_get_set_other (k k' : string) (e : cache_entry) (l : list (string * cache_entry)) :
  k' <> k -> obj_get k' (obj_set k e l) = obj_get k' l.
Proof.
  intros Hne. induction l as [|[n x] t IH]; cbn.
  - destruct (String.eqb_spec k k'); congruence.
  - destruct (String.eqb_spec n k) as [->|Hn]; cbn.
    + destruct (String.eqb_spec k k'); congruence.
    + destruct (String.eqb n k'); [reflexivity|exact IH].
Qed.

(** X: a freshly mounted banner always sends the GET for the patient (its
    cache is empty); afterwards [loading] is false, [patientResource] is
    the answer, and only a successful answer is cached. *)
Theorem onMount_initial (bu p : string) (now : Z) (r : option jval) :
  snd (onMount initial_banner bu p now r) = Some (patient_url bu p) /\
  loading (fst (onMount initial_banner bu p now r)) = false /\
  patientResource (fst (onMount initial_banner bu p now r)) = r /\
  patientCache (fst (onMount initial_banner bu p now r)) =
    match r with
    | Some d => [(cacheKey bu p, {| data := d; timestamp := now |})]
    | None => []
    end.
Proof. destruct r; repeat split. Qed.

(** X: after a request answered with [d] at time [t], [getPatientData]
    returns [d] from the cache, with no request and no state change, while
    [now - t < CACHE_DURATION]; from then on it sends the GET again. *)
Theorem getPatientData_cache (b b1 : banner) (bu p : string) (t : Z) (d d' : jval)
  (u : option string) :
  getPatientData b bu p t (Some d) = (b1, u, Some d') -> u <> None ->
  d' = d /\ u = Some (patient_url bu p) /\
  (forall t' r', t' - t < CACHE_DURATION -> getPatientData b1 bu p t' r' = (b1, None, Some d)) /\
  (forall t' r', t' - t >= CACHE_DURATION ->
     snd (fst (getPatientData b1 bu p t' r')) = Some (patient_url bu p) /\
     snd (getPatientData b1 bu p t' r') = r').
Proof.
  intros H Hu.
  assert (Hb1 : b1 = set_patientCache (obj_set (cacheKey bu p) {| data := d; timestamp := t |}
                                               (patientCache b)) b /\
                u = Some (patient_url bu p) /\ d' = d).
  { unfold getPatientData in H.
    destruct (obj_get (cacheKey bu p) (patientCache b)) as [e|].
    - destruct (t - timestamp e <? CACHE_DURATION); injection H as <- <- <-;
        [congruence|auto].
    - injection H as <- <- <-. auto. }
  destruct Hb1 as (-> & -> & ->).
  assert (Hg : obj_get (cacheKey bu p)
                 (patientCache (set_patientCache (obj_set (cacheKey bu p)
                    {| data := d; timestamp := t |} (patientCache b)) b))
               = Some {| data := d; timestamp := t |}) by apply obj_get_set_same.
  split; [reflexivity|]. split; [reflexivity|]. split.
  - intros t' r' Ht. unfold getPatientData at 1. rewrite Hg. cbn [timestamp data].
    apply Z.ltb_lt in Ht. rewrite Ht. reflexivity.
  - intros t' r' Ht. unfold getPatientData. rewrite Hg. cbn [timestamp data].
    destruct (Z.ltb_spec (t' - t) CACHE_DURATION); [lia|].
    destruct r'; split; reflexivity.
Qed.

(** X: when the GET fails the banner is unchanged (nothing is cached), and
    if the GET was sent [getPatientData] throws; a request for another key leaves this
    key's cache entry as it was. *)
Theorem getPatientData_failure_and_keys (b : banner) (bu p : string) (now : Z) (r : option jval)
  (k : string) :
  (r = None -> fst (fst (getPatientData b bu p now r)) = b /\
               (snd (fst (getPatientData b bu p now r)) <> None ->
                snd (getPatientData b bu p now r) = None)) /\
  (k <> cacheKey bu p ->
     obj_get k (patientCache (fst (fst (getPatientData b bu p now r)))) =
     obj_get k (patientCache b)).
Proof.
  unfold getPatientData. split.
  - intros ->. destruct (obj_get (cacheKey bu p) (patientCache b)) as [e|];
      [destruct (now - timestamp e <? CACHE_DURATION)|]; cbn; split; auto;
      intros Hn; contradiction.
  - intros Hk. destruct (obj_get (cacheKey bu p) (patientCache b)) as [e|];
      [destruct (now - timestamp e <? CACHE_DURATION)|]; destruct r; cbn;
      try reflexivity; apply obj_get_set_other; exact Hk.
Qed.

End BannerProps.

(* ------------------------------------------------------------------ *)
(** ** ObservationViewer: fetching, paging and display *)

Module FeedExtra.
Import Feed.

Section Cursor.
Variable date_time : string -> option Z.
Variable patientId : string.

Lemma next_link_nonempty (b : bundle) : next_link b <> Some "".
Proof.
  unfold next_link. destruct (link b) as [ls|]; [|discriminate].
  destruct (find _ ls) as [k|]; [|discriminate].
  destruct (String.eqb_spec (url k) ""); congruence.
Qed.

Lemma reactive_cursor (st : feed) :
  nextUrl (reactive date_time st) = nextUrl st /\
  hasMoreOnServer (reactive date_time st) = hasMoreOnServer st.
Proof.
  unfold reactive. destruct (vitalObservations st); [|split; reflexivity].
  destruct (FeedProps.update_fields date_time st) as (_ & _ & _ & H1 & H2 & _). auto.
Qed.

Lemma update_cursor (st : feed) :
  nextUrl (updateDisplayedObservations date_time st) = nextUrl st /\
  hasMoreOnServer (updateDisplayedObservations date_time st) = hasMoreOnServer st.
Proof.
  destruct (FeedProps.update_fields date_time st) as (_ & _ & _ & H1 & H2 & _). auto.
Qed.

Ltac cursor_rw :=
  repeat match goal with
  | |- context [reactive date_time ?x] =>
      let H1 := fresh in let H2 := fresh in
      destruct (reactive_cursor x) as [H1 H2]; rewrite H1, H2; clear H1 H2
  | |- context [updateDisplayedObservations date_time ?x] =>
      let H1 := fresh in let H2 := fresh in
      destruct (update_cursor x) as [H1 H2]; rewrite H1, H2; clear H1 H2
  end.

(** Each event either keeps [nextUrl] and [hasMoreOnServer], or sets them
    from the [next] link of a fetched bundle. *)
Lemma step_cursor (st st' : feed) :
  step date_time patientId st st' ->
  (nextUrl st' = nextUrl st /\ hasMoreOnServer st' = hasMoreOnServer st) \/
  (exists b, nextUrl st' = next_link b /\ hasMoreOnServer st' = Js.truthy_str (next_link b)).
Proof.
  intros Hs. destruct Hs as [st now r|st r|st now_iso|st obs r now_ms|st now r|st|st v|st].
  - unfold mount, getVitals. destruct (getVitals_cache false st now) as [b|].
    + left. cbv beta iota zeta.
      cursor_rw. auto.
    + destruct r as [b|m]; cbv beta iota zeta.
      * right. exists b. cursor_rw. auto.
      * left. auto.
  - rewrite FeedProps.loadMore_unfold.
    cursor_rw. cbn [nextUrl hasMoreOnServer set_currentPage].
    unfold loadMore_merge.
    destruct (_ && _ && _); [|left; auto].
    unfold fetchMoreFromServer.
    destruct (negb (Js.truthy_str (nextUrl st)) || isLoadingMore st); [left; auto|].
    destruct r as [b|m]; [right; exists b|left]; auto.
  - unfold createTemperatureObservation. destruct (_ || _); left; auto.
  - unfold create_resolved. destruct r as [data|e]; [|left; auto].
    cbn [fst]. left. cursor_rw.
    cbn [nextUrl hasMoreOnServer set_creating set_temperatureValue set_showCreateForm
         set_createSuccess].
    cursor_rw.
    destruct (vitalObservations _); auto.
  - unfold reconcile, getVitals. cbn [getVitals_cache]. destruct r as [b|m]; [right; exists b|left; auto].
    cursor_rw. auto.
  - left. auto.
  - left. auto.
  - left. apply reactive_cursor.
Qed.

(** X: in every reachable state the pagination cursor [nextUrl] is never the
    empty string, and a cursor is only held while [hasMoreOnServer] is true:
    once the server reports no further page, [nextUrl] is [null]. *)
Theorem cursor_invariant (st : feed) :
  reachable date_time patientId st ->
  nextUrl st <> Some "" /\
  (nextUrl st <> None -> Js.truthy_str (nextUrl st) = true /\ hasMoreOnServer st = true) /\
  (hasMoreOnServer st = false -> nextUrl st = None).
Proof.
  intros Hr.
  assert (H : nextUrl st <> Some "" /\ (nextUrl st <> None -> hasMoreOnServer st = true)).
  { induction Hr as [|st st' Hr IH Hs].
    - split; [discriminate|reflexivity].
    - destruct (step_cursor st st' Hs) as [(H1 & H2)|(b & H1 & H2)].
      + rewrite H1, H2. exact IH.
      + rewrite H1, H2. split; [apply next_link_nonempty|].
        intros Hn. destruct (next_link b) as [u|] eqn:E; [|contradiction].
        apply LaunchProps.truthy_nonempty. intros ->. exact (next_link_nonempty b E). }
  destruct H as (H1 & H2). split; [exact H1|]. split.
  - intros Hn. split; [|exact (H2 Hn)].
    destruct (nextUrl st) as [u|]; [|contradiction].
    apply LaunchProps.truthy_nonempty. intros ->. apply H1. reflexivity.
  - intros Hf. destruct (nextUrl st) as [u|]; [|reflexivity].
    rewrite H2 in Hf by discriminate. discriminate.
Qed.

End Cursor.

Section Behaviour.
Variable date_time : string -> option Z.
Variable patientId : string.

Lemma update_isLoadingMore (st : feed) :
  isLoadingMore (updateDisplayedObservations date_time st) = isLoadingMore st.
Proof.
  unfold updateDisplayedObservations.
  destruct (allObservations st), (vitalObservations st); reflexivity.
Qed.

Lemma update_all_length (st : feed) :
  (List.length (allObservations st)
   <= List.length (allObservations (updateDisplayedObservations date_time st)))%nat.
Proof.
  unfold updateDisplayedObservations.
  destruct (allObservations st) eqn:Ea, (vitalObservations st); cbn; rewrite ?Ea; cbn; lia.
Qed.

Lemma loadMore_merge_length (st : feed) (r : response) :
  (List.length (allObservations st)
   <= List.length (allObservations (loadMore_merge date_time st r)))%nat.
Proof.
  unfold loadMore_merge. destruct (_ && _ && _); [|lia].
  pose proof (FeedProps.fetchMore_fields st r) as Hf. cbv zeta in Hf.
  destruct Hf as (_ & _ & Ha & _).
  destruct (fetchMoreFromServer st r) as [st1 md]. cbn [fst] in Ha.
  destruct md as [b|]; [|rewrite Ha; lia].
  cbn [allObservations set_allObservations].
  rewrite (Permutation_length (FeedProps.js_sort_perm date_time _)), length_app, Ha. lia.
Qed.

(** X: when [loadMore] needs a page from the server and its GET fails, the
    collection and the cursor are kept, [isLoadingMore] is reset, the page
    still advances, [hasMore()] stays true, and the next [loadMore] asks for
    the same page again. *)
Theorem loadMore_fetch_failure (st : feed) (m : string) :
  reachable date_time patientId st ->
  (List.length (allObservations st) < (currentPage st + 2) * itemsPerPage st)%nat ->
  hasMoreOnServer st = true -> isLoadingMore st = false ->
  Js.truthy_str (nextUrl st) = true ->
  let st' := loadMore date_time st (Err m) in
  allObservations st' = allObservations st /\ nextUrl st' = nextUrl st /\
  hasMoreOnServer st' = true /\ isLoadingMore st' = false /\
  currentPage st' = S (currentPage st) /\ hasMore st' = true /\
  (List.length (allObservations st') < (currentPage st' + 2) * itemsPerPage st')%nat.
Proof.
  intros Hr Hl Hm Hload Hn. cbv zeta.
  destruct (FeedProps.reachable_inv date_time patientId st Hr) as (_ & He & _).
  assert (HM : loadMore_merge date_time st (Err m) = set_isLoadingMore false st).
  { unfold loadMore_merge. apply Nat.ltb_lt in Hl. rewrite Hl, Hm, Hload. cbn [andb negb].
    unfold fetchMoreFromServer. rewrite Hn, Hload. reflexivity. }
  rewrite FeedProps.loadMore_unfold, HM.
  set (X := set_currentPage (S (currentPage (set_isLoadingMore false st)))
              (set_isLoadingMore false st)).
  assert (Ha : allObservations (updateDisplayedObservations date_time X) = allObservations st)
    by exact (FeedProps.update_keeps_all date_time X He).
  destruct (update_cursor date_time X) as (Hu1 & Hu2).
  destruct (FeedProps.update_fields date_time X) as (Hc & Hi & _).
  rewrite Ha, Hu1, Hu2, Hc, Hi, update_isLoadingMore. cbn.
  split; [reflexivity|]. split; [reflexivity|]. split; [exact Hm|].
  split; [reflexivity|]. split; [reflexivity|]. split.
  - unfold hasMore. rewrite Ha, Hu2.
    replace (hasMoreOnServer X) with true by exact (eq_sym Hm). apply orb_true_r.
  - nia.
Qed.

(** X: [loadMore] never shrinks the displayed list. *)
Theorem loadMore_displayed_grows (st : feed) (r : response) :
  reachable date_time patientId st ->
  (List.length (displayedObservations st)
   <= List.length (displayedObservations (loadMore date_time st r)))%nat.
Proof.
  intros Hr.
  assert (Hr' : reachable date_time patientId (loadMore date_time st r))
    by (eapply ReachStep; [exact Hr|apply StepLoadMore]).
  destruct (FeedProps.reachable_inv date_time patientId st Hr) as (Hd & _ & _).
  destruct (FeedProps.reachable_inv date_time patientId _ Hr') as (Hd' & _ & _).
  rewrite Hd, Hd', !length_firstn, FeedProps.loadMore_window.
  assert (Hlen : (List.length (allObservations st)
                  <= List.length (allObservations (loadMore date_time st r)))%nat).
  { rewrite FeedProps.loadMore_unfold.
    pose proof (loadMore_merge_length st r).
    pose proof (update_all_length
                  (set_currentPage (S (currentPage (loadMore_merge date_time st r)))
                                   (loadMore_merge date_time st r))).
    cbn [allObservations set_currentPage] in *. lia. }
  lia.
Qed.

(** X: mounting the component on its initial state always sends the GET
    (the cache is empty).  On success the first page of the sorted entries
    is shown and the cursor is taken from the bundle's [next] link; on
    failure the error text is set and nothing is shown. *)
Theorem mount_initial (now : Z) :
  (forall b,
     let st := mount date_time initial now (Ok b) in
     loading st = false /\ error st = None /\ vitalObservations st = Some b /\
     allObservations st = js_sort date_time (getVitalsEntries b) /\
     displayedObservations st = firstn 20 (js_sort date_time (getVitalsEntries b)) /\
     currentPage st = 0%nat /\ nextUrl st = next_link b /\
     hasMoreOnServer st = Js.truthy_str (next_link b) /\ lastFetchTime st = now) /\
  (forall m,
     let st := mount date_time initial now (Err m) in
     loading st = false /\ error st = Some ("Failed to fetch vital signs: " ++ m) /\
     vitalObservations st = None /\ allObservations st = [] /\
     displayedObservations st = [] /\ nextUrl st = None /\ lastFetchTime st = 0).
Proof. split; intros; repeat split. Qed.

(** X: the timer's refresh restarts paging from the fetched first page: the
    cursor and [hasMoreOnServer] come from its [next] link and the fetch
    time is updated; a failed refresh changes nothing, so the optimistic
    entry stays in the collection. *)
Theorem reconcile_cursor_and_failure (st : feed) (now : Z) :
  (forall b,
     let st' := reconcile date_time st now (Ok b) in
     nextUrl st' = next_link b /\ hasMoreOnServer st' = Js.truthy_str (next_link b) /\
     lastFetchTime st' = now /\ isLoadingMore st' = isLoadingMore st) /\
  (forall m, reconcile date_time st now (Err m) = st).
Proof.
  split; [|intros m; reflexivity].
  intros b. cbv zeta. unfold reconcile, getVitals, getVitals_cache, reactive.
  unfold updateDisplayedObservations at 2. cbn.
  destruct (js_sort date_time (getVitalsEntries b)) eqn:E; cbn; rewrite ?E; repeat split.
Qed.

(** X: [getVitals()] without [forceRefresh] answers with the stored bundle,
    without a request and without a state change, while it is younger than
    [CACHE_DURATION]; when forced, or with nothing stored, it sends the GET:
    its answer is returned and the cursor and fetch time are updated, and a
    failure is rethrown as "Failed to fetch vital signs: ..." with the state
    unchanged. *)
Theorem getVitals_cache_behaviour :
  (forall st now r b, vitalObservations st = Some b ->
     now - lastFetchTime st < CACHE_DURATION ->
     getVitals false st now r = (st, Ok b)) /\
  (forall f st now b, (f = true \/ vitalObservations st = None) ->
     let '(st', res) := getVitals f st now (Ok b) in
     res = Ok b /\ lastFetchTime st' = now /\ nextUrl st' = next_link b /\
     hasMoreOnServer st' = Js.truthy_str (next_link b) /\
     vitalObservations st' = vitalObservations st) /\
  (forall f st now m, (f = true \/ vitalObservations st = None) ->
     getVitals f st now (Err m) = (st, Err ("Failed to fetch vital signs: " ++ m))).
Proof.
  split; [|split].
  - intros st now r b Hv Ht. unfold getVitals, getVitals_cache. rewrite Hv.
    apply Z.ltb_lt in Ht. rewrite Ht. reflexivity.
  - intros f st now b Hf. unfold getVitals, getVitals_cache.
    destruct Hf as [->| Hv]; [|destruct f; [|rewrite Hv]]; repeat split; exact Hv.
  - intros f st now m Hf. unfold getVitals, getVitals_cache.
    destruct Hf as [->| Hv]; [|destruct f; [|rewrite Hv]]; reflexivity.
Qed.

(** X: a card's date line: "Unknown date" when the reading has no
    [effectiveDateTime] (or an empty one); otherwise the instant the feed
    sorts the reading by, in the browser's format, or "Invalid Date" when
    that text does not parse (then the reading is undated for the sort).
    A card without a resource shows the three fallback texts. *)
Theorem card_date_line (toLocaleString : Z -> string) (e : bundle_entry) :
  (Js.truthy_str (match resource e with Some o => effectiveDateTime o | None => None end) = false ->
   snd (fst (vital_card date_time toLocaleString e)) = "Unknown date") /\
  (forall d, match resource e with Some o => effectiveDateTime o | None => None end = Some d ->
   d <> "" ->
   snd (fst (vital_card date_time toLocaleString e)) =
     match entry_time date_time e with Some t => toLocaleString t | None => "Invalid Date" end) /\
  (resource e = None ->
   vital_card date_time toLocaleString e = ("Unknown vital sign", "Unknown date", "Not available")).
Proof.
  split; [|split].
  - intros H. unfold vital_card, formatDateTime. cbn [fst snd]. rewrite H. reflexivity.
  - intros d Hd Hne. unfold vital_card, formatDateTime, entry_time. cbn [fst snd].
    rewrite Hd, (LaunchProps.truthy_nonempty d Hne). cbn [negb].
    unfold Js.or_str. rewrite (proj2 (String.eqb_neq d "") Hne). reflexivity.
  - intros H. unfold vital_card. rewrite H. reflexivity.
Qed.

End Behaviour.

End FeedExtra.

(* ------------------------------------------------------------------ *)
(** ** The theorems at concrete inputs *)

Module Witnesses.
Import App Feed Samples.

Lemma launch_takeover_witness :
  iss ehr_launch = Some "https://fhir.example/r4" /\ "https://fhir.example/r4" <> "" /\
  launch ehr_launch = Some "xyz" /\ "xyz" <> "" /\
  store (takeover ehr_launch other_session) =
    {| ls_token := None; ls_iss := None; ls_tokenEndpoint := None;
       ls_currentLaunch := Some "https://fhir.example/r4:xyz" |}.
Proof.
  assert (Hi : "https://fhir.example/r4" <> "") by (vm_compute; discriminate).
  assert (Hl : "xyz" <> "") by (vm_compute; discriminate).
  refine (conj eq_refl (conj Hi (conj eq_refl (conj Hl _)))).
  destruct (LaunchProps.launch_takeover ehr_launch other_session _ _ eq_refl Hi eq_refl Hl)
    as (_ & _ & H & _).
  apply (H "https://other.example/r4:abc"); [reflexivity|vm_compute; discriminate|vm_compute; discriminate].
Defined.

Lemma session_restore_condition_witness :
  App.code code_redirect = Some "auth-code-123" /\ "auth-code-123" <> "" /\
  truthy_json (ls_token (store (takeover code_redirect (app_init endpoint_only)))) = false /\
  snd (onMount code_redirect (app_init endpoint_only))
    = TokenRequest "https://fhir.example/token" "auth-code-123".
Proof.
  assert (Hc : "auth-code-123" <> "") by (vm_compute; discriminate).
  assert (Ht : truthy_json (ls_token (store (takeover code_redirect (app_init endpoint_only)))) = false)
    by (vm_compute; reflexivity).
  refine (conj eq_refl (conj Hc (conj Ht _))).
  rewrite (proj2 (LaunchProps.session_restore_condition code_redirect endpoint_only)
                 "auth-code-123" eq_refl Hc Ht).
  vm_compute. reflexivity.
Defined.

Lemma bpDisplay_policy_witness :
  bp_quantities string_obs = None /\ valueQuantity string_obs = None /\
  valueString string_obs = Some "98.6 F" /\ "98.6 F" <> "" /\
  bpDisplay string_obs = "98.6 F".
Proof.
  assert (Hb : bp_quantities string_obs = None) by (vm_compute; reflexivity).
  assert (Hv : "98.6 F" <> "") by (vm_compute; discriminate).
  refine (conj Hb (conj eq_refl (conj eq_refl (conj Hv _)))).
  exact (proj1 (proj2 (proj2 (proj1 FeedProps.bpDisplay_policy string_obs)))
           "98.6 F" Hb eq_refl eq_refl Hv).
Defined.

Lemma sort_order_when_dated_witness :
  reachable iso_date_time "12724066" first_page /\
  (List.length (allObservations first_page) < (currentPage first_page + 2) * itemsPerPage first_page)%nat /\
  hasMoreOnServer first_page = true /\ isLoadingMore first_page = false /\
  Js.truthy_str (nextUrl first_page) = true /\
  Forall (dated iso_date_time) (allObservations first_page ++ getVitalsEntries second_bundle) /\
  Sorted (not_older iso_date_time)
    (allObservations (loadMore iso_date_time first_page (Ok second_bundle))).
Proof.
  assert (Hr : reachable iso_date_time "12724066" first_page).
  { eapply ReachStep; [apply ReachInit|apply StepMount]. }
  assert (Hlen : (List.length (allObservations first_page)
                  < (currentPage first_page + 2) * itemsPerPage first_page)%nat)
    by (vm_compute; lia).
  assert (Hd : Forall (dated iso_date_time) (allObservations first_page ++ getVitalsEntries second_bundle)).
  { assert (Ha : (allObservations first_page ++ getVitalsEntries second_bundle)%list
                 = [dated_entry; later_entry]) by (vm_compute; reflexivity).
    rewrite Ha. constructor; [|constructor; [|constructor]];
      unfold dated; vm_compute; discriminate. }
  refine (conj Hr (conj Hlen (conj eq_refl (conj eq_refl (conj eq_refl (conj Hd _)))))).
  exact (proj2 (proj1 (proj2 (FeedProps.sort_order_when_dated iso_date_time "12724066"))
                  first_page second_bundle Hr Hlen eq_refl eq_refl eq_refl) Hd).
Defined.

Lemma optimistic_create_witness :
  reachable iso_date_time "12724066" first_page /\
  allObservations first_page = [dated_entry] /\
  allObservations (fst (create_resolved iso_date_time first_page
            (temperatureObservation "12724066" "36.6" "2024-03-02T10:00:00Z")
            (PostOk (Some (Some "obs-7"))) 1709373600000))
  = optimistic_entry (temperatureObservation "12724066" "36.6" "2024-03-02T10:00:00Z")
                     (Some (Some "obs-7")) 1709373600000 :: allObservations first_page /\
  hd_error (displayedObservations
    (fst (create_resolved iso_date_time first_page
            (temperatureObservation "12724066" "36.6" "2024-03-02T10:00:00Z")
            (PostOk (Some (Some "obs-7"))) 1709373600000)))
  = Some (optimistic_entry (temperatureObservation "12724066" "36.6" "2024-03-02T10:00:00Z")
                           (Some (Some "obs-7")) 1709373600000) /\
  displayedObservations
    (fst (create_resolved iso_date_time first_page
            (temperatureObservation "12724066" "36.6" "2024-03-02T10:00:00Z")
            (PostOk (Some (Some "obs-7"))) 1709373600000))
  = [optimistic_entry (temperatureObservation "12724066" "36.6" "2024-03-02T10:00:00Z")
                      (Some (Some "obs-7")) 1709373600000; dated_entry] /\
  option_map (fun b => List.length (getVitalsEntries b))
    (vitalObservations (fst (create_resolved iso_date_time first_page
            (temperatureObservation "12724066" "36.6" "2024-03-02T10:00:00Z")
            (PostOk (Some (Some "obs-7"))) 1709373600000))) = Some 2%nat.
Proof.
  assert (Hr : reachable iso_date_time "12724066" first_page).
  { eapply ReachStep; [apply ReachInit|apply StepMount]. }
  pose proof (FeedProps.optimistic_create iso_date_time "12724066" first_page
                "36.6" "2024-03-02T10:00:00Z" (Some (Some "obs-7")) 1709373600000 Hr) as H.
  cbv zeta in H. destruct H as (H1 & H2 & _).
  refine (conj Hr (conj _ (conj H1 (conj H2 (conj _ _))))); vm_compute; reflexivity.
Defined.

Lemma window_invariant_witness :
  reachable iso_date_time "12724066" first_page /\
  List.length (displayedObservations first_page)
    = Nat.min (window first_page) (List.length (allObservations first_page)).
Proof.
  assert (Hr : reachable iso_date_time "12724066" first_page).
  { eapply ReachStep; [apply ReachInit|apply StepMount]. }
  split; [exact Hr|].
  exact (proj2 (proj1 (FeedProps.window_invariant iso_date_time "12724066") first_page Hr)).
Defined.

Lemma loadMore_saturated_witness :
  reachable iso_date_time "12724066" single_page /\
  hasMoreOnServer single_page = false /\ nextUrl single_page = None /\
  (List.length (allObservations single_page) <= window single_page)%nat /\
  displayedObservations (fold_left (loadMore iso_date_time)
                           [Ok second_bundle; Err "Network Error"; Ok first_bundle] single_page)
  = displayedObservations single_page.
Proof.
  assert (Hr : reachable iso_date_time "12724066" single_page).
  { eapply ReachStep; [apply ReachInit|apply StepMount]. }
  assert (Hl : (List.length (allObservations single_page) <= window single_page)%nat)
    by (vm_compute; lia).
  refine (conj Hr (conj eq_refl (conj eq_refl (conj Hl _)))).
  exact (proj1 (proj2 (FeedProps.loadMore_saturated iso_date_time "12724066" single_page
                         [Ok second_bundle; Err "Network Error"; Ok first_bundle]
                         Hr eq_refl eq_refl Hl))).
Defined.

Lemma create_failure_paths_witness :
  Js.isNaN (Js.parseFloat (temperatureValue (typed "abc"))) = true /\
  createTemperatureObservation "12724066" (typed "abc") "2024-03-01T08:30:00Z"
  = (set_createError (Some validation_message) (typed "abc"), None).
Proof.
  assert (Hn : Js.isNaN (Js.parseFloat (temperatureValue (typed "abc"))) = true)
    by (vm_compute; reflexivity).
  split; [exact Hn|].
  exact (proj1 (FeedProps.create_failure_paths iso_date_time "12724066")
           (typed "abc") "2024-03-01T08:30:00Z" (or_intror Hn)).
Defined.


Lemma constructAuthUrl_query_witness :
  ~ In "state" ["client_id"; "redirect_uri"; "scope"; "response_type"; "aud"; "launch"] /\
  Url.params_getAll "state"
    (Url.url_query (auth_url {| Url.url_prefix := "https://ehr.example/authorize";
                                Url.url_query := [("state", "s-1")];
                                Url.url_fragment := "" |}
                             "xyz" "https://fhir.example/r4")) = ["s-1"].
Proof.
  assert (Hn : ~ In "state" ["client_id"; "redirect_uri"; "scope"; "response_type"; "aud"; "launch"]).
  { cbn. intros H. repeat destruct H as [H|H]; first [discriminate|contradiction]. }
  split; [exact Hn|].
  pose proof (LaunchExtra.constructAuthUrl_query
                {| Url.url_prefix := "https://ehr.example/authorize";
                   Url.url_query := [("state", "s-1")]; Url.url_fragment := "" |}
                "xyz" "https://fhir.example/r4") as H.
  cbv zeta in H. destruct H as (_ & _ & _ & _ & _ & _ & _ & _ & H).
  rewrite (H "state" Hn). reflexivity.
Defined.

Lemma makeTokenRequest_form_witness :
  makeTokenRequest (app_init endpoint_only) "auth-code-123"
    = Some ("https://fhir.example/token", Url.form_serialize (token_form "auth-code-123")) /\
  Url.form_parse (Url.form_serialize (token_form "auth-code-123")) = token_form "auth-code-123".
Proof.
  assert (Hm : makeTokenRequest (app_init endpoint_only) "auth-code-123"
               = Some ("https://fhir.example/token", Url.form_serialize (token_form "auth-code-123")))
    by reflexivity.
  split; [exact Hm|].
  exact (proj1 (proj2 ((proj2 (LaunchExtra.makeTokenRequest_form (app_init endpoint_only)
                                 "auth-code-123")) _ _ Hm))).
Defined.

Lemma smart_launch_sequence_witness :
  snd (onMount {| iss := Some "https://fhir.example/r4"; launch := Some "xyz"; App.code := None |}
               (app_init empty_storage)) = Discovery "https://fhir.example/r4" "xyz" /\
  store (token_received
           (fst (onMount {| iss := None; launch := None; App.code := Some "auth-code-123" |}
                   (app_init (store (discovery_document_received
                      (fst (onMount {| iss := Some "https://fhir.example/r4"; launch := Some "xyz";
                                       App.code := None |} (app_init empty_storage)))
                      (Some (JStr "https://fhir.example/token")))))))
           (JStr "token-json"))
    = {| ls_token := Some (JStr "token-json"); ls_iss := Some "https://fhir.example/r4";
         ls_tokenEndpoint := Some "https://fhir.example/token";
         ls_currentLaunch := Some (launch_key "https://fhir.example/r4" "xyz") |}.
Proof.
  destruct (LaunchExtra.smart_launch_sequence empty_storage "https://fhir.example/r4" "xyz"
              "auth-code-123" "https://fhir.example/token" (JStr "token-json")
              ltac:(discriminate) ltac:(discriminate) ltac:(discriminate) ltac:(discriminate)
              eq_refl (or_introl eq_refl)) as (H1 & _ & _ & H4 & _).
  exact (conj H1 H4).
Defined.

Lemma undefined_token_endpoint_witness :
  ls_tokenEndpoint (store (discovery_document_received (app_init empty_storage) None))
    = Some "undefined" /\
  snd (onMount {| iss := None; launch := None; App.code := Some "auth-code-123" |}
               (app_init (store (discovery_document_received (app_init empty_storage) None))))
    = TokenRequest "undefined" "auth-code-123".
Proof.
  destruct (LaunchExtra.undefined_token_endpoint (app_init empty_storage) None "auth-code-123"
              (or_introl eq_refl) ltac:(discriminate) eq_refl) as (H1 & H2 & _).
  exact (conj H1 H2).
Defined.

Lemma onMount_missing_params_witness :
  snd (onMount {| iss := Some "https://fhir.example/r4"; launch := None; App.code := None |}
               (app_init empty_storage)) = MissingParams /\
  (Js.truthy_str (Some "https://fhir.example/r4") && Js.truthy_str None)%bool = false /\
  store (fst (onMount {| iss := Some "https://fhir.example/r4"; launch := None; App.code := None |}
                      (app_init empty_storage))) = empty_storage.
Proof.
  assert (Hm : snd (onMount {| iss := Some "https://fhir.example/r4"; launch := None;
                               App.code := None |} (app_init empty_storage)) = MissingParams)
    by reflexivity.
  destruct (LaunchExtra.onMount_missing_params
              {| iss := Some "https://fhir.example/r4"; launch := None; App.code := None |}
              empty_storage) as ((Hl & _) & Hs).
  destruct (Hl Hm) as (_ & _ & H3).
  exact (conj Hm (conj H3 (Hs Hm))).
Defined.

Lemma getPatientData_cache_witness :
  Banner.getPatientData
    (fst (fst (Banner.getPatientData Banner.initial_banner "https://fhir.example/r4" "12724066"
                 0 (Some (JStr "patient")))))
    "https://fhir.example/r4" "12724066" 120000 None
  = (fst (fst (Banner.getPatientData Banner.initial_banner "https://fhir.example/r4" "12724066"
                 0 (Some (JStr "patient")))), None, Some (JStr "patient")).
Proof.
  destruct (BannerProps.getPatientData_cache Banner.initial_banner
              (fst (fst (Banner.getPatientData Banner.initial_banner "https://fhir.example/r4"
                           "12724066" 0 (Some (JStr "patient")))))
              "https://fhir.example/r4" "12724066" 0 (JStr "patient") (JStr "patient")
              (Some (Banner.patient_url "https://fhir.example/r4" "12724066"))
              eq_refl ltac:(discriminate)) as (_ & _ & H & _).
  apply H. reflexivity.
Defined.

Lemma getPatientData_failure_and_keys_witness :
  fst (fst (Banner.getPatientData Banner.initial_banner "https://fhir.example/r4" "12724066"
              0 None)) = Banner.initial_banner /\
  Banner.obj_get "https://other.example-1"
    (Banner.patientCache (fst (fst (Banner.getPatientData Banner.initial_banner
                                      "https://fhir.example/r4" "12724066" 0
                                      (Some (JStr "patient"))))))
  = None.
Proof.
  destruct (BannerProps.getPatientData_failure_and_keys Banner.initial_banner
              "https://fhir.example/r4" "12724066" 0 None "https://other.example-1")
    as (H1 & _).
  destruct (BannerProps.getPatientData_failure_and_keys Banner.initial_banner
              "https://fhir.example/r4" "12724066" 0 (Some (JStr "patient"))
              "https://other.example-1") as (_ & H2).
  split; [exact (proj1 (H1 eq_refl))|].
  rewrite H2 by (vm_compute; discriminate). reflexivity.
Defined.

Lemma first_page_reachable : reachable iso_date_time "12724066" first_page.
Proof. eapply ReachStep; [apply ReachInit|apply StepMount]. Defined.

Lemma cursor_invariant_witness :
  nextUrl first_page <> None /\ Js.truthy_str (nextUrl first_page) = true /\
  hasMoreOnServer first_page = true.
Proof.
  assert (Hn : nextUrl first_page <> None) by (vm_compute; discriminate).
  destruct (FeedExtra.cursor_invariant iso_date_time "12724066" first_page first_page_reachable)
    as (_ & H & _).
  exact (conj Hn (H Hn)).
Defined.

Lemma loadMore_fetch_failure_witness :
  nextUrl (loadMore iso_date_time first_page (Err "Network Error")) = nextUrl first_page /\
  hasMore (loadMore iso_date_time first_page (Err "Network Error")) = true.
Proof.
  destruct (FeedExtra.loadMore_fetch_failure iso_date_time "12724066" first_page "Network Error"
              first_page_reachable ltac:(vm_compute; lia) ltac:(vm_compute; reflexivity)
              ltac:(vm_compute; reflexivity) ltac:(vm_compute; reflexivity))
    as (_ & H2 & _ & _ & _ & H6 & _).
  exact (conj H2 H6).
Defined.

Lemma loadMore_displayed_grows_witness :
  (List.length (displayedObservations first_page)
   <= List.length (displayedObservations (loadMore iso_date_time first_page (Ok second_bundle))))%nat.
Proof.
  exact (FeedExtra.loadMore_displayed_grows iso_date_time "12724066" first_page (Ok second_bundle)
           first_page_reachable).
Defined.

Lemma getVitals_cache_behaviour_witness :
  getVitals false first_page 1000 (Err "Network Error") = (first_page, Ok first_bundle) /\
  getVitals true first_page 1000 (Err "Network Error")
    = (first_page, Err ("Failed to fetch vital signs: " ++ "Network Error")).
Proof.
  destruct FeedExtra.getVitals_cache_behaviour as (H1 & _ & H3).
  split.
  - apply H1; vm_compute; reflexivity.
  - apply H3. left. reflexivity.
Defined.

Lemma card_date_line_witness :
  snd (fst (vital_card iso_date_time (fun _ => "local time")
              (entry_of (with_value None None None (Some "yesterday"))))) = "Invalid Date".
Proof.
  rewrite (proj1 (proj2 (FeedExtra.card_date_line iso_date_time (fun _ => "local time")
                           (entry_of (with_value None None None (Some "yesterday")))))
             "yesterday" eq_refl ltac:(discriminate)).
  vm_compute. reflexivity.
Defined.

End Witnesses.
